(** * sequelize-crud: the base CRUD resource controller (src/baseCtrl.js)

  A shallow embedding of the class [Base]: the translation of a tree of
  request parameters into ORM query options ([_getOptions]) and the five
  public methods [find], [findById], [create], [update] and [remove],
  which delegate to the injected ORM model and shape its results.

  The ORM model, the model registry ([models]), the parameter normaliser
  ([paramsToTree]) and the JavaScript number type are collaborators that
  live outside the file; they are taken as parameters. *)

From Stdlib Require Import List String Ascii ZArith Bool Lia DecimalString.
Import ListNotations.
Local Open Scope string_scope.
Local Open Scope list_scope.
Set Warnings "-register-all".

(* ===================================================================== *)
(** ** JavaScript values *)
(* ===================================================================== *)

(** The part of the JS number type the controller relies on.  Numbers are
  IEEE doubles in the host; the controller only builds them from integer
  literals and lengths, coerces request values to them with unary [+],
  tests them for truthiness and compares them (lodash's SameValueZero). *)
Class JsNumber : Type := {
  number : Type;
  of_Z : Z -> number;
  num_nan : number;
  num_truthy : number -> bool;          (* !!n : false for 0, -0 and NaN *)
  num_same : number -> number -> bool;  (* SameValueZero *)
  num_of_string : string -> number;     (* StringToNumber, NaN included *)
  num_to_string : number -> string;     (* Number::toString *)
  num_as_length : number -> option nat; (* lodash isLength: an integer in 0 .. 2^53-1 *)
  num_truthy_of_Z : forall z, num_truthy (of_Z z) = negb (z =? 0)%Z
}.

Section Values.
Context {JN : JsNumber}.

(** Request data: what a parsed query string or JSON body can hold.  An
    object is the list of its own enumerable properties in enumeration
    order. *)
Inductive value : Type :=
| VUndefined
| VNull
| VBool (b : bool)
| VNum (n : number)
| VStr (s : string)
| VArr (items : list value)
| VObj (props : list (string * value)).

Definition obj : Type := list (string * value).

(** [lookup k o]: the own property [k] of [o], when it has one. *)
Fixpoint lookup (k : string) (o : obj) : option value :=
  match o with
  | [] => None
  | (k', v) :: rest => if String.eqb k k' then Some v else lookup k rest
  end.

(** [o[k]] / [o.k]: a missing property reads as [undefined]. *)
Definition prop (o : obj) (k : string) : value :=
  match lookup k o with
  | Some v => v
  | None => VUndefined
  end.

(** ToBoolean. *)
Definition truthy (v : value) : bool :=
  match v with
  | VUndefined | VNull => false
  | VBool b => b
  | VNum n => num_truthy n
  | VStr s => negb (String.eqb s "")
  | VArr _ | VObj _ => true
  end.

(** [a || b]. *)
Definition or_else (a b : value) : value := if truthy a then a else b.

(** ToString.  Arrays join their elements with a comma, null and
    undefined elements printing as the empty string. *)
Fixpoint ToString (v : value) : string :=
  match v with
  | VUndefined => "undefined"
  | VNull => "null"
  | VBool true => "true"
  | VBool false => "false"
  | VNum n => num_to_string n
  | VStr s => s
  | VArr items =>
      String.concat ","
        (map (fun x => match x with
                       | VUndefined | VNull => ""
                       | _ => ToString x
                       end) items)
  | VObj _ => "[object Object]"
  end.

(** ToNumber, the unary [+].  Arrays and plain objects go through their
    string form. *)
Definition ToNumber (v : value) : number :=
  match v with
  | VUndefined => num_nan
  | VNull => of_Z 0
  | VBool true => of_Z 1
  | VBool false => of_Z 0
  | VNum n => n
  | VStr s => num_of_string s
  | VArr _ | VObj _ => num_of_string (ToString v)
  end.

(** The decimal name of an index property. *)
Definition index_key (i : nat) : string :=
  NilEmpty.string_of_uint (Nat.to_uint i).

(** The characters of a string (of ASCII text), each as a one-character
    string. *)
Fixpoint chars (s : string) : list value :=
  match s with
  | EmptyString => []
  | String c rest => VStr (String c EmptyString) :: chars rest
  end.

(** SameValueZero.  Objects and arrays compare by identity; two that
    reach a comparison here were built separately, hence differ. *)
Definition same_value_zero (a b : value) : bool :=
  match a, b with
  | VUndefined, VUndefined => true
  | VNull, VNull => true
  | VBool x, VBool y => Bool.eqb x y
  | VNum x, VNum y => num_same x y
  | VStr x, VStr y => String.eqb x y
  | _, _ => false
  end.

End Values.

(* ===================================================================== *)
(** ** The lodash functions the controller calls *)
(* ===================================================================== *)

Module Lodash.
Section Lodash.
Context {JN : JsNumber}.

(** The own enumerable properties of [Object(v)]: an array's and a
    string's are its indices. *)
Definition indexed (items : list value) : obj :=
  combine (map index_key (seq 0 (List.length items))) items.

Definition own_props (v : value) : obj :=
  match v with
  | VObj props => props
  | VArr items => indexed items
  | VStr s => indexed (chars s)
  | _ => []
  end.

(** [isArrayLike]: the elements lodash iterates when a collection has a
    [length] that is a valid length and the collection is not a function.
    A plain object with such a numeric [length] counts. *)
Definition array_like (v : value) : option (list value) :=
  match v with
  | VArr items => Some items
  | VStr s => Some (chars s)
  | VObj props =>
      match lookup "length" props with
      | Some (VNum n) =>
          match num_as_length n with
          | Some len => Some (map (fun i => prop props (index_key i)) (seq 0 len))
          | None => None
          end
      | _ => None
      end
  | _ => None
  end.

(** The (key, value) pairs an iteratee of [_.reduce] or [_.map] receives:
    numeric indices for an array-like collection, property names
    otherwise. *)
Definition entries (collection : value) : list (value * value) :=
  match array_like collection with
  | Some items =>
      combine (map (fun i => VNum (of_Z (Z.of_nat i))) (seq 0 (List.length items))) items
  | None =>
      match collection with
      | VObj props => map (fun kv => (VStr (fst kv), snd kv)) props
      | _ => []
      end
  end.

(** [_.reduce(collection, (acc, value, key) => ..., acc0)]. *)
Definition reduce {A : Type} (collection : value)
    (iteratee : A -> value -> value -> A) (acc0 : A) : A :=
  fold_left (fun acc kv => iteratee acc (snd kv) (fst kv)) (entries collection) acc0.

(** [_.map(collection, (value, key) => ...)]. *)
Definition map_ {B : Type} (collection : value)
    (iteratee : value -> value -> B) : list B :=
  map (fun kv => iteratee (snd kv) (fst kv)) (entries collection).

(** [_.isArray(v) ? v : [v]]. *)
Definition isArray (v : value) : bool :=
  match v with VArr _ => true | _ => false end.

Definition castArray (v : value) : list value :=
  match v with VArr items => items | _ => [v] end.

(** [_.get(object, key, defaultValue)] on a one-segment path: the default
    stands in for a missing or undefined property. *)
Definition get (o : obj) (k : string) (defaultValue : value) : value :=
  match prop o k with
  | VUndefined => defaultValue
  | v => v
  end.

(** [_.pick(v, keys)], for keys that are not index or [length] names. *)
Definition pick (v : value) (keys : list string) : obj :=
  flat_map (fun k => match lookup k (own_props v) with
                     | Some x => [(k, x)]
                     | None => []
                     end) keys.

(** [_.omit(v, keys)] for one-segment keys: a copy of the properties of
    [v], in their order, without the named ones. *)
Definition omit (v : value) (keys : list string) : obj :=
  filter (fun kv => negb (existsb (String.eqb (fst kv)) keys)) (own_props v).

(** [isArrayLikeObject], the filter [_.difference] applies to the lists
    of values to exclude: strings and other primitives are skipped. *)
Definition array_like_object (v : value) : list value :=
  match v with
  | VStr _ => []
  | _ => match array_like v with Some items => items | None => [] end
  end.

(** [_.difference(array, ...values)]. *)
Definition difference (array : list value) (values : list value) : list value :=
  let excluded := flat_map array_like_object values in
  filter (fun x => negb (existsb (same_value_zero x) excluded)) array.

(** A property name that is one property path segment for lodash and an
    ordinary data property of a plain object: not empty, free of the path
    syntax [.], [[] and [[]], not starting with a digit (index names
    enumerate first) and not a member of [Object.prototype]. *)
Definition object_prototype_names : list string :=
  ["constructor"; "__proto__"; "toString"; "toLocaleString"; "valueOf";
   "hasOwnProperty"; "isPrototypeOf"; "propertyIsEnumerable";
   "__defineGetter__"; "__defineSetter__"; "__lookupGetter__";
   "__lookupSetter__"].

Definition path_syntax (c : ascii) : bool :=
  (Ascii.eqb c "." || Ascii.eqb c "[" || Ascii.eqb c "]")%char.

Definition is_digit (c : ascii) : bool :=
  existsb (Ascii.eqb c) (list_ascii_of_string "0123456789").

Definition plain_name (s : string) : bool :=
  match list_ascii_of_string s with
  | [] => false
  | c :: _ =>
      negb (is_digit c)
      && forallb (fun x => negb (path_syntax x)) (list_ascii_of_string s)
      && negb (existsb (String.eqb s) object_prototype_names)
  end.

End Lodash.
End Lodash.

(* ===================================================================== *)
(** ** Promises over the database *)
(* ===================================================================== *)

(** What the ORM rejects with (its own error classes), and what the
    controller's promises reject with: an ORM error passed on, or an
    [HttpError(status)] the controller throws itself. *)
Inductive orm_error : Type :=
| UniqueConstraintError (detail : string)
| DatabaseError (detail : string).

Inductive error : Type :=
| HttpError (status : Z)
| OrmError (e : orm_error).

Inductive settled (E A : Type) : Type :=
| Resolved (a : A)
| Rejected (e : E).
Arguments Resolved {E A} a.
Arguments Rejected {E A} e.

Module Promise.
Section Promise.
Variable db : Type.

(** A promise runs against the database and settles. *)
Definition promise (E A : Type) : Type := db -> settled E A * db.

Definition resolve {E A : Type} (a : A) : promise E A :=
  fun d => (Resolved a, d).

Definition reject {E A : Type} (e : E) : promise E A :=
  fun d => (Rejected e, d).

(** [p.then(f)]: [f] returns (resolve) or throws (reject), or returns
    another promise. *)
Definition then_ {E A B : Type} (p : promise E A) (f : A -> promise E B)
    : promise E B :=
  fun d =>
    match p d with
    | (Resolved a, d') => f a d'
    | (Rejected e, d') => (Rejected e, d')
    end.

(** [p.catch(h)]. *)
Definition catch {E A : Type} (p : promise E A) (h : E -> promise E A)
    : promise E A :=
  fun d =>
    match p d with
    | (Resolved a, d') => (Resolved a, d')
    | (Rejected e, d') => h e d'
    end.

(** A call of an ORM method from the controller. *)
Definition call {A : Type} (q : promise orm_error A) : promise error A :=
  fun d =>
    match q d with
    | (Resolved a, d') => (Resolved a, d')
    | (Rejected e, d') => (Rejected (OrmError e), d')
    end.

(** [Promise.all([p, q]).spread(f)].  Both queries have been issued, [p]
    first; when both reject, [q_rejects_first] tells whose reason wins. *)
Definition all_spread {E A B C : Type} (q_rejects_first : bool)
    (p : promise E A) (q : promise E B) (f : A -> B -> C) : promise E C :=
  fun d =>
    match p d with
    | (rp, d1) =>
        match q d1 with
        | (rq, d2) =>
            match rp, rq with
            | Resolved a, Resolved b => (Resolved (f a b), d2)
            | Rejected e, Resolved _ => (Rejected e, d2)
            | Resolved _, Rejected e => (Rejected e, d2)
            | Rejected e1, Rejected e2 =>
                (Rejected (if q_rejects_first then e2 else e1), d2)
            end
        end
    end.

End Promise.
End Promise.

(* ===================================================================== *)
(** ** The controller *)
(* ===================================================================== *)

Section Types.
Context {JN : JsNumber}.

(** The database behind the ORM, and the model classes of the registry
    [models] (required from ../../models, the application's own). *)
Context {db : Type} {model_ref : Type}.

Local Abbreviation promise := (Promise.promise db).

Definition LIMIT : string := "limit".
Definition OFFSET : string := "offset".
Definition ORDER : string := "order".
Definition INCLUDE : string := "include".
Definition ATTRIBUTES : string := "attributes".
Definition EXCLUDE : string := "exclude".
Definition IGNORE : list string := [LIMIT; OFFSET; ORDER; INCLUDE; ATTRIBUTES].

(** [static get LIMIT()] and [static get OFFSET()], which
    [this.constructor.LIMIT] and [this.constructor.OFFSET] read in a class
    that does not redefine them. *)
Definition Base_LIMIT : Z := 100.
Definition Base_OFFSET : Z := 0.

(** [models.Sequelize.and(val)]. *)
Inductive where_clause : Type :=
| SequelizeAnd (val : value).

(** One value of the [include] object: [{model, attributes, where}], the
    last two when they were set.  [inc_model = None] is [model: undefined]
    (the registry has no such model). *)
Record include_entry : Type := {
  inc_model : option model_ref;
  inc_attributes : option (list value);
  inc_where : option where_clause
}.

(** An element of the [order] array: [[name, direction]] or
    [[orderModel, field, direction]]. *)
Inductive order_item : Type :=
| OrderBy (name : value) (direction : value)
| OrderByAssociation (orderModel : option model_ref) (field : value)
    (direction : value).

(** The options object handed to the ORM.  [limit] and [offset] are
    optional because [find] omits them for the count query. *)
Record query_options : Type := {
  attributes : list value;
  where_ : obj;
  include : list include_entry;
  order : list order_item;
  limit : option number;
  offset : option number;
  subQuery : bool
}.

(** [_.omit(options, LIMIT, OFFSET)]. *)
Definition omit_limit_offset (options : query_options) : query_options :=
  {| attributes := attributes options;
     where_ := where_ options;
     include := include options;
     order := order options;
     limit := None;
     offset := None;
     subQuery := subQuery options |}.

(** The interface of a Sequelize model class the controller uses.  Every
    call is a promise over the database. *)
Record Orm : Type := {
  orm_associations : list (string * string);  (* association name, target.name *)
  orm_attributes : list string;               (* Object.keys(model.attributes) *)
  orm_findAll : query_options -> promise orm_error (list value);
  orm_count : query_options -> promise orm_error value;
  orm_findById : value -> query_options -> promise orm_error value;
  orm_findOne : value -> promise orm_error value;         (* findOne({where}) *)
  orm_create : value -> promise orm_error value;
  orm_update : value -> value -> promise orm_error value; (* update(data, {where}) *)
  orm_destroy : value -> promise orm_error value          (* destroy({where}) *)
}.

(** A controller instance. *)
Record Base : Type := {
  modelName : string;
  model : model_ref;
  relations : list string;
  defaultAttributes : value;
  defaultExclude : value
}.

(** *** The [include] object under construction *)

Definition include_map : Type := list (string * include_entry).

Inductive entry_field : Type :=
| FModel (m : option model_ref)
| FAttributes (attrs : list value)
| FWhere (w : where_clause).

Definition field_name (f : entry_field) : string :=
  match f with
  | FModel _ => "model"
  | FAttributes _ => ATTRIBUTES
  | FWhere _ => "where"
  end.

Definition assign (f : entry_field) (e : include_entry) : include_entry :=
  match f with
  | FModel m =>
      {| inc_model := m; inc_attributes := inc_attributes e; inc_where := inc_where e |}
  | FAttributes a =>
      {| inc_model := inc_model e; inc_attributes := Some a; inc_where := inc_where e |}
  | FWhere w =>
      {| inc_model := inc_model e; inc_attributes := inc_attributes e; inc_where := Some w |}
  end.

Definition empty_entry : include_entry :=
  {| inc_model := None; inc_attributes := None; inc_where := None |}.

Definition has_key (inc : include_map) (name : string) : bool :=
  existsb (fun kv => String.eqb name (fst kv)) inc.

(** [include[name][field] = v], creating [include[name]] at the end of
    the object when it is missing. *)
Definition set_field (inc : include_map) (name : string) (f : entry_field)
    : include_map :=
  if has_key inc name
  then map (fun kv => if String.eqb name (fst kv)
                      then (fst kv, assign f (snd kv)) else kv) inc
  else inc ++ [(name, assign f empty_entry)].

End Types.

Arguments include_entry {JN} model_ref.
Arguments order_item {JN} model_ref.
Arguments query_options {JN} model_ref.
Arguments Orm {JN} db model_ref.
Arguments Base {JN} model_ref.
Arguments include_map {JN} model_ref.
Arguments entry_field {JN} model_ref.

(** What surrounds the controller: the model registry [models] with the
    interface of each model class, the normaliser [paramsToTree] (package
    params-to-tree), what [_.set] does with a path [name + '.' + field]
    whose [name] is not a plain property name (several segments, an index,
    a member of [Object.prototype]), whether the installed lodash is one
    whose [_.set] refuses the key [prototype] (later 4.17 releases return
    the object untouched, earlier ones write the key like any other), and
    which of two rejected queries of [find] settles first. *)
Class Host {JN : JsNumber} (db model_ref : Type) : Type := {
  models : string -> option model_ref;
  model_ops : model_ref -> Orm db model_ref;
  paramsToTree : obj -> obj;
  set_deep : include_map model_ref -> string -> entry_field model_ref
             -> include_map model_ref;
  set_guards_prototype : bool;
  count_rejects_first : bool
}.

Section Controller.
Context {JN : JsNumber} {db model_ref : Type} {H : Host db model_ref}.

Local Abbreviation promise := (Promise.promise db).

(** [constructor()], for a (sub)class named [name].  Without a model of
    that name, reading [this.model.associations] throws. *)
Definition constructor (name : string) : option (Base model_ref) :=
  match models name with
  | Some m =>
      Some {| modelName := name;
              model := m;
              relations := map snd (orm_associations (model_ops m));
              defaultAttributes := VNull;
              defaultExclude := VNull |}
  | None => None
  end.

(** A first path segment that [_.set] refuses: it returns the object as
    it is. *)
Definition refused (name : string) : bool :=
  set_guards_prototype && String.eqb name "prototype".

(** [_.set(include, name + '.' + field, v)]. *)
Definition set (inc : include_map model_ref) (name : string)
    (f : entry_field model_ref) : include_map model_ref :=
  if Lodash.plain_name name
  then (if refused name then inc else set_field inc name f)
  else set_deep inc (name ++ "." ++ field_name f)%string f.

Definition keys (inc : include_map model_ref) : list string := map fst inc.
Definition values (inc : include_map model_ref)
    : list (include_entry model_ref) := map snd inc.

(** [this.relations.indexOf(name) > -1]: strict equality with one of the
    relation names, which are strings. *)
Definition is_relation (this : Base model_ref) (name : value) : bool :=
  match name with
  | VStr s => existsb (String.eqb s) (relations this)
  | _ => false
  end.

(** *** [_getOptions(options)] *)

(** The callback of the first [_.reduce]: a parameter named after a
    relation becomes an entry of [include]. *)
Definition include_step (this : Base model_ref) (include : include_map model_ref)
    (val name : value) : include_map model_ref :=
  if is_relation this name then
    let n := ToString name in
    let include := set include n (FModel (models n)) in
    let attributes :=
      Lodash.get (Lodash.pick val [ATTRIBUTES]) ATTRIBUTES VUndefined in
    let '(include, val) :=
      if truthy attributes
      then (set include n (FAttributes (Lodash.castArray attributes)),
            VObj (Lodash.omit val [ATTRIBUTES]))
      else (include, val) in
    set include n (FWhere (SequelizeAnd val))
  else include.

(** [options[INCLUDE] || []], made an array. *)
Definition includeModels (options : obj) : list value :=
  Lodash.castArray (or_else (prop options INCLUDE) (VArr [])).

(** The callback of [includeModels.forEach]. *)
Definition include_model (include : include_map model_ref) (name : value)
    : include_map model_ref :=
  let n := ToString name in
  set include n (FModel (models n)).

(** The callback of the second [_.reduce], which also writes to
    [include].  [order.concat(...)] builds a new array and leaves [order]
    as it was; the callback does not keep the new array. *)
Definition order_step (this : Base model_ref)
    (acc : include_map model_ref * list (order_item model_ref))
    (value name : value)
    : include_map model_ref * list (order_item model_ref) :=
  let '(include, order) := acc in
  if is_relation this name then
    let orderModel := models (ToString name) in
    let include := set include (ToString name) (FModel orderModel) in
    let _concatenated :=
      order ++ Lodash.map_ value
                 (fun val field => OrderByAssociation orderModel field val) in
    (include, order)
  else
    (include, order ++ [OrderBy name value]).

Definition _getOptions (this : Base model_ref) (options : obj)
    : query_options model_ref :=
  let include := Lodash.reduce (VObj options) (include_step this) [] in
  let include := fold_left include_model (includeModels options) include in
  let '(include, order) :=
    Lodash.reduce (prop options ORDER) (order_step this) (include, []) in
  let where_ := Lodash.omit (VObj options) (keys include ++ IGNORE) in
  let limit := ToNumber (Lodash.get options LIMIT (VNum (of_Z Base_LIMIT))) in
  let offset := ToNumber (Lodash.get options OFFSET (VNum (of_Z Base_OFFSET))) in
  let attributes :=
    or_else (or_else (prop options ATTRIBUTES) (defaultAttributes this))
            (VArr (map VStr (orm_attributes (model_ops (model this))))) in
  let attributes := Lodash.castArray attributes in
  let attributes :=
    Lodash.difference attributes [prop options EXCLUDE; defaultExclude this] in
  {| attributes := attributes;
     where_ := where_;
     include := values include;
     order := order;
     limit := Some limit;
     offset := Some offset;
     subQuery := false |}.

(** *** The public methods *)

(** [{data, meta: {count, total, limit, offset}}]; a field the options
    lack reads as undefined. *)
Definition opt_num (n : option number) : value :=
  match n with
  | Some x => VNum x
  | None => VUndefined
  end.

Definition find_result (options : query_options model_ref) (data : list value)
    (total : value) : value :=
  VObj [("data", VArr data);
        ("meta", VObj [("count", VNum (of_Z (Z.of_nat (List.length data))));
                       ("total", total);
                       ("limit", opt_num (limit options));
                       ("offset", opt_num (offset options))])].

Definition find (this : Base model_ref) (params : obj) : promise error value :=
  let params := paramsToTree params in
  let options := _getOptions this params in
  let dataP := Promise.call db (orm_findAll (model_ops (model this)) options) in
  let totalP :=
    Promise.call db (orm_count (model_ops (model this)) (omit_limit_offset options)) in
  Promise.all_spread db count_rejects_first dataP totalP (find_result options).

Definition findById (this : Base model_ref) (id : value) (params : obj)
    : promise error value :=
  let options := _getOptions this params in
  Promise.then_ db
    (Promise.call db (orm_findById (model_ops (model this)) id options))
    (fun data =>
       if negb (truthy data)
       then Promise.reject db (HttpError 404)
       else Promise.resolve db (VObj [("data", data)])).

Definition instanceof_UniqueConstraintError (e : error) : bool :=
  match e with
  | OrmError (UniqueConstraintError _) => true
  | _ => false
  end.

Definition create (this : Base model_ref) (data : value) : promise error value :=
  Promise.then_ db
    (Promise.catch db
       (Promise.call db (orm_create (model_ops (model this)) data))
       (fun e =>
          if negb (instanceof_UniqueConstraintError e)
          then Promise.reject db e
          else Promise.call db (orm_findOne (model_ops (model this)) data)))
    (fun data => Promise.resolve db (VObj [("data", data)])).

Definition update (this : Base model_ref) (id : value) (data : value)
    : promise error value :=
  Promise.then_ db
    (Promise.call db
       (orm_update (model_ops (model this)) data (VObj [("id", id)])))
    (fun affectedRows =>
       if negb (truthy affectedRows)
       then Promise.reject db (HttpError 204)
       else Promise.resolve db VUndefined).

Definition remove (this : Base model_ref) (condition : value) : promise error value :=
  Promise.then_ db
    (Promise.call db (orm_destroy (model_ops (model this)) condition))
    (fun affectedRows =>
       if negb (truthy affectedRows)
       then Promise.reject db (HttpError 202)
       else Promise.resolve db VUndefined).

End Controller.

(* ===================================================================== *)
(** ** Notions the statements use *)
(* ===================================================================== *)

(** The shape of what the ORM resolves with: a lookup yields a record (an
    object) or nothing (null; undefined counts as absent too), a destroy
    yields the number of rows it deleted. *)
Definition is_record {JN : JsNumber} (v : value) : bool :=
  match v with
  | VObj _ => true
  | _ => false
  end.

Definition no_record {JN : JsNumber} (v : value) : Prop :=
  v = VNull \/ v = VUndefined.

Definition row_count {JN : JsNumber} (n : nat) : value :=
  VNum (of_Z (Z.of_nat n)).

Definition is_row_count {JN : JsNumber} (v : value) : Prop :=
  exists n : nat, v = row_count n.

(** The names [_getOptions] passes to [_.set], in the order of the calls:
    the parameter keys that are relations, the names listed under
    [include], and the keys of [order] that are relations. *)
Definition relation_names {JN : JsNumber} {model_ref : Type}
    (this : Base model_ref) (es : list (value * value)) : list string :=
  flat_map (fun kv => if is_relation this (fst kv)
                      then [ToString (fst kv)] else []) es.

Definition include_names {JN : JsNumber} {model_ref : Type}
    (this : Base model_ref) (options : obj) : list string :=
  relation_names this (Lodash.entries (VObj options))
  ++ map ToString (includeModels options)
  ++ relation_names this (Lodash.entries (prop options ORDER)).

(** Those of them [_.set] writes an entry for: all but the refused. *)
Definition written_names {JN : JsNumber} {db model_ref : Type}
    {H : Host db model_ref} (this : Base model_ref) (options : obj)
    : list string :=
  filter (fun n => negb (refused n)) (include_names this options).

(** The [include] object when [_getOptions] computes [where] from it. *)
Definition built_include {JN : JsNumber} {db model_ref : Type}
    {H : Host db model_ref} (this : Base model_ref) (options : obj)
    : include_map model_ref :=
  fst (Lodash.reduce (prop options ORDER) (order_step this)
         (fold_left include_model (includeModels options)
            (Lodash.reduce (VObj options) (include_step this) []), [])).

(** The elements [order.push] adds: one pair for each entry of [order]
    whose key is not a relation. *)
Definition pushed_order {JN : JsNumber} {model_ref : Type}
    (this : Base model_ref) (es : list (value * value))
    : list (order_item model_ref) :=
  flat_map (fun kv => if is_relation this (fst kv)
                      then [] else [OrderBy (fst kv) (snd kv)]) es.


Definition mem (k : string) (ks : list string) : bool :=
  existsb (String.eqb k) ks.

(** The attributes [_getOptions] starts from, before it takes the
    excluded ones away: the parameter, else the controller's default,
    else the attributes of the model; one value stands for a list of
    one. *)
Definition chosen_attributes {JN : JsNumber} {db model_ref : Type}
    {H : Host db model_ref} (this : Base model_ref) (options : obj)
    : list value :=
  Lodash.castArray
    (or_else (or_else (prop options ATTRIBUTES) (defaultAttributes this))
       (VArr (map VStr (orm_attributes (model_ops (model this)))))).

(** [include[name]], when the object has that key. *)
Definition entry_of {JN : JsNumber} {model_ref : Type}
    (inc : include_map model_ref) (name : string)
    : option (include_entry model_ref) :=
  option_map snd (List.find (fun kv => String.eqb name (fst kv)) inc).

(** Keys are distinct and each entry holds the model of its key. *)
Definition well_keyed {JN : JsNumber} {db model_ref : Type}
    {H : Host db model_ref} (inc : include_map model_ref) : Prop :=
  NoDup (keys inc) /\ forall n e, In (n, e) inc -> inc_model e = models n.

(** The entry the first [_.reduce] writes for a parameter [name: val]
    that names a relation: the model, the where clause and, when [val]
    has truthy [attributes], those attributes, split off the clause. *)
Definition relation_entry {JN : JsNumber} {db model_ref : Type}
    {H : Host db model_ref} (name : string) (val : value)
    : include_entry model_ref :=
  let attributes :=
    Lodash.get (Lodash.pick val [ATTRIBUTES]) ATTRIBUTES VUndefined in
  if truthy attributes
  then {| inc_model := models name;
          inc_attributes := Some (Lodash.castArray attributes);
          inc_where := Some (SequelizeAnd (VObj (Lodash.omit val [ATTRIBUTES]))) |}
  else {| inc_model := models name;
          inc_attributes := None;
          inc_where := Some (SequelizeAnd val) |}.

(* ===================================================================== *)
(** ** A small application: one table behind an in-memory ORM *)
(* ===================================================================== *)

Module Sample.

(** Numbers cut down to the integers and NaN ([None]).  [num_of_string]
    is exact on strings of decimal digits; other numeric literals
    (fractions, exponents, signs, blanks) are not used below. *)
Fixpoint position (c : ascii) (l : list ascii) (i : Z) : option Z :=
  match l with
  | [] => None
  | x :: rest => if Ascii.eqb c x then Some i else position c rest (i + 1)
  end.

Definition digit (c : ascii) : option Z :=
  position c (list_ascii_of_string "0123456789") 0.

Fixpoint digits_value (acc : Z) (l : list ascii) : option Z :=
  match l with
  | [] => Some acc
  | c :: rest =>
      match digit c with
      | Some x => digits_value (10 * acc + x) rest
      | None => None
      end
  end.

Definition int_of_string (s : string) : option Z :=
  digits_value 0 (list_ascii_of_string s).

Definition int_to_string (n : option Z) : string :=
  match n with
  | Some z => NilZero.string_of_int (Z.to_int z)
  | None => "NaN"
  end.

Definition int_truthy (n : option Z) : bool :=
  match n with
  | Some z => negb (z =? 0)%Z
  | None => false
  end.

Definition int_same (a b : option Z) : bool :=
  match a, b with
  | Some x, Some y => (x =? y)%Z
  | None, None => true
  | _, _ => false
  end.

(** A length is an integer from 0 to 2^53 - 1: at most 53 binary digits. *)
Definition int_as_length (n : option Z) : option nat :=
  match n with
  | Some Z0 => Some 0%nat
  | Some (Zpos p) =>
      if (Pos.size_nat p <=? 53)%nat then Some (Pos.to_nat p) else None
  | _ => None
  end.

#[export] Instance IntNumber : JsNumber := {
  number := option Z;
  of_Z := Some;
  num_nan := None;
  num_truthy := int_truthy;
  num_same := int_same;
  num_of_string := int_of_string;
  num_to_string := int_to_string;
  num_as_length := int_as_length;
  num_truthy_of_Z := fun z => eq_refl
}.

(** The table: rows [(id, name)], [name] unique. *)
Definition table : Type := list (Z * string).

Definition row_value (r : Z * string) : value :=
  VObj [("id", VNum (Some (fst r))); ("name", VStr (snd r))].

Definition or_null (r : option (Z * string)) : value :=
  match r with
  | Some x => row_value x
  | None => VNull
  end.

Definition has_id (id : value) (r : Z * string) : bool :=
  match id with
  | VNum (Some z) => (z =? fst r)%Z
  | _ => false
  end.

Definition has_name (name : value) (r : Z * string) : bool :=
  match name with
  | VStr s => String.eqb s (snd r)
  | _ => false
  end.

(** The [where] clauses the table understands: [{id}] and [{name}]. *)
Definition matches (where_ : value) (r : Z * string) : bool :=
  match where_ with
  | VObj props =>
      match lookup "id" props, lookup "name" props with
      | Some id, _ => has_id id r
      | None, Some name => has_name name r
      | None, None => true
      end
  | _ => false
  end.

Definition window (limit offset : option (option Z)) (rows : table) : table :=
  let rows := match offset with
              | Some (Some o) => skipn (Z.to_nat o) rows
              | _ => rows
              end in
  match limit with
  | Some (Some l) => firstn (Z.to_nat l) rows
  | _ => rows
  end.

Definition next_id (rows : table) : Z :=
  fold_left Z.max (map fst rows) 0%Z + 1.

Definition table_orm : Orm table string := {|
  orm_associations := [("posts", "Post")];
  orm_attributes := ["id"; "name"];
  orm_findAll := fun options d =>
    (Resolved (map row_value
                 (window (limit options) (offset options)
                    (filter (matches (VObj (where_ options))) d))), d);
  orm_count := fun options d =>
    (Resolved (VNum (Some (Z.of_nat
        (List.length (filter (matches (VObj (where_ options))) d))))), d);
  orm_findById := fun id _ d => (Resolved (or_null (List.find (has_id id) d)), d);
  orm_findOne := fun w d => (Resolved (or_null (List.find (matches w) d)), d);
  orm_create := fun data d =>
    match data with
    | VObj props =>
        match lookup "name" props with
        | Some (VStr s) =>
            if existsb (has_name (VStr s)) d
            then (Rejected (UniqueConstraintError "name must be unique"), d)
            else (Resolved (row_value (next_id d, s)), d ++ [(next_id d, s)])
        | _ => (Rejected (DatabaseError "name cannot be null"), d)
        end
    | _ => (Rejected (DatabaseError "name cannot be null"), d)
    end;
  orm_update := fun data w d =>
    match data with
    | VObj props =>
        match lookup "name" props with
        | Some (VStr s) =>
            (Resolved (VNum (Some (Z.of_nat (List.length (filter (matches w) d))))),
             map (fun r => if matches w r then (fst r, s) else r) d)
        | _ => (Rejected (DatabaseError "name cannot be null"), d)
        end
    | _ => (Rejected (DatabaseError "name cannot be null"), d)
    end;
  orm_destroy := fun w d =>
    (Resolved (VNum (Some (Z.of_nat (List.length (filter (matches w) d))))),
     filter (fun r => negb (matches w r)) d)
|}.

(** A normaliser in the manner of params-to-tree: a key [a.b] becomes
    the property [b] of the object under [a]. *)
Fixpoint split_at_dot (s : string) : string * option string :=
  match s with
  | EmptyString => (EmptyString, None)
  | String c rest =>
      if Ascii.eqb c "."%char then (EmptyString, Some rest)
      else let '(a, b) := split_at_dot rest in (String c a, b)
  end.

Fixpoint put (o : obj) (k : string) (v : value) : obj :=
  match o with
  | [] => [(k, v)]
  | (k', v') :: rest =>
      if String.eqb k k' then (k, v) :: rest else (k', v') :: put rest k v
  end.

Definition put_nested (o : obj) (k : string) (v : value) : obj :=
  match split_at_dot k with
  | (a, Some b) =>
      match prop o a with
      | VObj inner => put o a (VObj (put inner b v))
      | _ => put o a (VObj [(b, v)])
      end
  | (_, None) => put o k v
  end.

Definition nest_dotted (params : obj) : obj :=
  fold_left (fun o kv => put_nested o (fst kv) (snd kv)) params [].

(** The registry holds three models; the controller below is the one for
    [User], whose single association targets [Post]. *)
#[export] Instance app : Host table string := {|
  models := fun name =>
    if existsb (String.eqb name) ["User"; "Post"; "Tag"] then Some name else None;
  model_ops := fun _ => table_orm;
  paramsToTree := nest_dotted;
  set_deep := fun inc _ _ => inc;
  set_guards_prototype := true;
  count_rejects_first := false
|}.

Definition users : Base string := {|
  modelName := "User";
  model := "User";
  relations := ["Post"];
  defaultAttributes := VNull;
  defaultExclude := VNull
|}.

Definition rows : table := [(1, "ann"); (2, "bob"); (3, "cy")]%Z.

(** Requests used below. *)
Definition page : obj := [("limit", VStr "2"); ("offset", VStr "1")].

Definition bob : value := VObj [("name", VStr "bob")].
Definition bob_99 : value := VObj [("id", VNum (of_Z 99)); ("name", VStr "bob")].
Definition dan : value := VObj [("name", VStr "dan")].



(** An [order] with a column and an association. *)
Definition ordered : obj :=
  [("order", VObj [("name", VStr "asc");
                   ("Post", VObj [("title", VStr "desc")])])].


(** An [exclude] given once, as a string. *)
Definition hide_name : obj := [("exclude", VStr "name"); ("name", VStr "bob")].

(** The relation [Post] filtered, with its attributes chosen, and named
    again under [include] and [order]. *)
Definition posts_titled : obj :=
  [("Post", VObj [("attributes", VStr "title"); ("title", VStr "t")]);
   ("include", VArr [VStr "Post"; VStr "Tag"]);
   ("order", VObj [("Post", VObj [("title", VStr "desc")])])].

(** An ORM that resolves an update with [[affectedCount]], and the
    application over it. *)
Definition counting_in_array : Orm table string := {|
  orm_associations := orm_associations table_orm;
  orm_attributes := orm_attributes table_orm;
  orm_findAll := orm_findAll table_orm;
  orm_count := orm_count table_orm;
  orm_findById := orm_findById table_orm;
  orm_findOne := orm_findOne table_orm;
  orm_create := orm_create table_orm;
  orm_update := fun data w d =>
    match orm_update table_orm data w d with
    | (Resolved n, d') => (Resolved (VArr [n]), d')
    | (Rejected e, d') => (Rejected e, d')
    end;
  orm_destroy := orm_destroy table_orm
|}.

Definition app_counting_in_array : Host table string := {|
  models := models (Host := app);
  model_ops := fun _ => counting_in_array;
  paramsToTree := nest_dotted;
  set_deep := fun inc _ _ => inc;
  set_guards_prototype := true;
  count_rejects_first := false
|}.

End Sample.

(* ===================================================================== *)
(** ** What the methods resolve and reject with *)
(* ===================================================================== *)

Ltac run_promise :=
  unfold Promise.then_, Promise.catch, Promise.call, Promise.all_spread,
    Promise.resolve, Promise.reject in *.

Section Methods.
Context {JN : JsNumber} {db model_ref : Type} {H : Host db model_ref}.
Implicit Types (this : Base model_ref) (d : db) (v : value).

Lemma truthy_record v : is_record v = true -> truthy v = true.
Proof. destruct v; simpl; congruence. Qed.

Lemma truthy_no_record v : no_record v -> truthy v = false.
Proof. intros [-> | ->]; reflexivity. Qed.

Lemma truthy_row_count (n : nat) : truthy (row_count n) = negb (Nat.eqb n 0).
Proof.
  unfold row_count; simpl. rewrite num_truthy_of_Z.
  destruct n; reflexivity.
Qed.

(** The query [find] counts with has everything of the data query but
    [limit] and [offset]. *)
Lemma omit_limit_offset_keeps (options : query_options model_ref) :
  attributes (omit_limit_offset options) = attributes options
  /\ where_ (omit_limit_offset options) = where_ options
  /\ include (omit_limit_offset options) = include options
  /\ order (omit_limit_offset options) = order options
  /\ subQuery (omit_limit_offset options) = subQuery options
  /\ limit (omit_limit_offset options) = None
  /\ offset (omit_limit_offset options) = None.
Proof. repeat split. Qed.

(** [_getOptions] always sets both [limit] and [offset]. *)
Lemma getOptions_limit_offset this (options : obj) :
  limit (_getOptions this options)
    = Some (ToNumber (Lodash.get options LIMIT (VNum (of_Z Base_LIMIT))))
  /\ offset (_getOptions this options)
    = Some (ToNumber (Lodash.get options OFFSET (VNum (of_Z Base_OFFSET)))).
Proof.
  unfold _getOptions.
  destruct (Lodash.reduce (prop options ORDER) _ _) as [inc ord].
  split; reflexivity.
Qed.

(** The options [find] builds: from the normalised parameters. *)
Local Abbreviation find_options this params :=
  (_getOptions this (paramsToTree params)).

(** C1. When the two queries of [find] succeed, [find] resolves with
    [{data, meta}]: [data] is what [findAll] returned under the options
    built from the normalised parameters, [meta.count] its length,
    [meta.total] what [count] returned under the same options without
    [limit] and [offset], and [meta.limit], [meta.offset] the limit and
    offset of the options given to [findAll]. *)
Theorem find_resolves_data_and_meta this (params : obj) d d1 d2
    (data : list value) (total : value) :
  orm_findAll (model_ops (model this)) (find_options this params) d
    = (Resolved data, d1) ->
  orm_count (model_ops (model this))
    (omit_limit_offset (find_options this params)) d1
    = (Resolved total, d2) ->
  exists l o : number,
    limit (find_options this params) = Some l
    /\ offset (find_options this params) = Some o
    /\ find this params d
       = (Resolved
            (VObj [("data", VArr data);
                   ("meta",
                    VObj [("count", VNum (of_Z (Z.of_nat (List.length data))));
                          ("total", total);
                          ("limit", VNum l);
                          ("offset", VNum o)])]), d2)
    /\ where_ (omit_limit_offset (find_options this params))
       = where_ (find_options this params)
    /\ include (omit_limit_offset (find_options this params))
       = include (find_options this params)
    /\ limit (omit_limit_offset (find_options this params)) = None
    /\ offset (omit_limit_offset (find_options this params)) = None.
Proof.
  intros Hdata Htotal.
  destruct (getOptions_limit_offset this (paramsToTree params)) as [Hl Ho].
  eexists; eexists. split; [exact Hl|]. split; [exact Ho|].
  split; [|repeat split].
  unfold find. run_promise.
  rewrite Hdata, Htotal. unfold find_result. rewrite Hl, Ho. reflexivity.
Qed.

(** C2. Provided the ORM lookup resolves with a record or with nothing,
    [findById] rejects with [HttpError(404)] exactly when the lookup
    resolved with nothing, and resolves with [{data: record}] whenever
    the lookup resolved with a record. *)
Theorem findById_404_iff_no_record this (id : value) (params : obj) d :
  (forall v d',
     orm_findById (model_ops (model this)) id (_getOptions this params) d
       = (Resolved v, d') ->
     no_record v \/ is_record v = true) ->
  ((exists d', findById this id params d = (Rejected (HttpError 404), d'))
   <-> (exists v d',
          orm_findById (model_ops (model this)) id (_getOptions this params) d
            = (Resolved v, d')
          /\ no_record v))
  /\ (forall v d',
        orm_findById (model_ops (model this)) id (_getOptions this params) d
          = (Resolved v, d') ->
        is_record v = true ->
        findById this id params d = (Resolved (VObj [("data", v)]), d')).
Proof.
  unfold findById. run_promise.
  destruct (orm_findById _ id _ d) as [[v | e] d1]; intros Hshape.
  - destruct (Hshape v d1 eq_refl) as [Hno | Hrec].
    + rewrite (truthy_no_record v Hno); simpl. split.
      * split; intros _; eauto.
      * intros v' d' Eq Hrec. inversion Eq; subst.
        apply truthy_record in Hrec. rewrite (truthy_no_record _ Hno) in Hrec.
        discriminate.
    + rewrite (truthy_record v Hrec); simpl. split.
      * split.
        -- intros [d' Eq]. discriminate.
        -- intros (v' & d' & Eq & Hno). inversion Eq; subst.
           apply truthy_no_record in Hno. apply truthy_record in Hrec. congruence.
      * intros v' d' Eq _. inversion Eq; subst. reflexivity.
  - split.
    + split.
      * intros [d' Eq]. discriminate.
      * intros (v' & d' & Eq & _). discriminate.
    + intros v' d' Eq. discriminate.
Qed.

(** C3. [create] resolves with [{data: created}] when the insert
    resolves; on a [UniqueConstraintError] it looks the data up with
    [findOne({where: data})] and resolves with [{data: found}]; any other
    error of the insert is the rejection of [create]. *)
Theorem create_resolves_or_falls_back this (data : value) d :
  (forall created d',
     orm_create (model_ops (model this)) data d = (Resolved created, d') ->
     create this data d = (Resolved (VObj [("data", created)]), d'))
  /\ (forall detail d' found d'',
        orm_create (model_ops (model this)) data d
          = (Rejected (UniqueConstraintError detail), d') ->
        orm_findOne (model_ops (model this)) data d' = (Resolved found, d'') ->
        create this data d = (Resolved (VObj [("data", found)]), d''))
  /\ (forall e d',
        orm_create (model_ops (model this)) data d = (Rejected e, d') ->
        (forall detail, e <> UniqueConstraintError detail) ->
        create this data d = (Rejected (OrmError e), d')).
Proof.
  unfold create. run_promise.
  split; [|split].
  - intros created d' ->. reflexivity.
  - intros detail d' found d'' -> Hone. simpl. rewrite Hone. reflexivity.
  - intros e d' -> Hother. destruct e as [detail | detail]; simpl.
    + destruct (Hother detail eq_refl).
    + reflexivity.
Qed.

(** C10. When the insert fails with a [UniqueConstraintError] and the
    fallback [findOne({where: data})] finds nothing, [create] still
    resolves, with [{data: null}]. *)
Theorem create_fallback_without_record this (data : value) d d' d'' detail :
  orm_create (model_ops (model this)) data d
    = (Rejected (UniqueConstraintError detail), d') ->
  orm_findOne (model_ops (model this)) data d' = (Resolved VNull, d'') ->
  create this data d = (Resolved (VObj [("data", VNull)]), d'').
Proof.
  intros Hins Hone. unfold create. run_promise.
  rewrite Hins. simpl. rewrite Hone. reflexivity.
Qed.

(** The test on the affected rows, on a promise that resolves with their
    number. *)
Lemma reject_when_no_rows (status : Z)
    (q : Promise.promise db orm_error value) d :
  (forall v d', q d = (Resolved v, d') -> is_row_count v) ->
  ((exists d',
      Promise.then_ db (Promise.call db q)
        (fun affectedRows =>
           if negb (truthy affectedRows)
           then Promise.reject db (HttpError status)
           else Promise.resolve db VUndefined) d
      = (Rejected (HttpError status), d'))
   <-> (exists d', q d = (Resolved (row_count 0), d')))
  /\ ((exists d',
         Promise.then_ db (Promise.call db q)
           (fun affectedRows =>
              if negb (truthy affectedRows)
              then Promise.reject db (HttpError status)
              else Promise.resolve db VUndefined) d
         = (Resolved VUndefined, d'))
      <-> (exists n d', q d = (Resolved (row_count (S n)), d'))).
Proof.
  run_promise.
  destruct (q d) as [[v | e] d1]; intros Hshape.
  - destruct (Hshape v d1 eq_refl) as [n ->].
    rewrite truthy_row_count. destruct n as [|n]; simpl.
    + split; split.
      * intros _. eauto.
      * intros _. eauto.
      * intros [d' Eq]. discriminate.
      * intros (n & d' & Eq).
        assert (Hn : row_count 0 = row_count (S n)) by congruence.
        apply (f_equal truthy) in Hn. rewrite !truthy_row_count in Hn.
        discriminate.
    + split; split.
      * intros [d' Eq]. discriminate.
      * intros [d' Eq].
        assert (Hn : row_count (S n) = row_count 0) by congruence.
        apply (f_equal truthy) in Hn. rewrite !truthy_row_count in Hn.
        discriminate.
      * intros _. eauto.
      * intros _. eauto.
  - split; split.
    + intros [d' Eq]; discriminate.
    + intros [d' Eq]; discriminate.
    + intros [d' Eq]; discriminate.
    + intros (n & d' & Eq); discriminate.
Qed.

(** C5. Provided the ORM destroy resolves with the number of rows it
    deleted, [remove(condition)] rejects with [HttpError(202)] exactly
    when the destroy with [where: condition] deleted no row, and
    resolves with no payload exactly when it deleted at least one. *)
Theorem remove_202_iff_no_row this (condition : value) d :
  (forall v d',
     orm_destroy (model_ops (model this)) condition d = (Resolved v, d') ->
     is_row_count v) ->
  ((exists d', remove this condition d = (Rejected (HttpError 202), d'))
   <-> (exists d',
          orm_destroy (model_ops (model this)) condition d
            = (Resolved (row_count 0), d')))
  /\ ((exists d', remove this condition d = (Resolved VUndefined, d'))
      <-> (exists n d',
             orm_destroy (model_ops (model this)) condition d
               = (Resolved (row_count (S n)), d'))).
Proof.
  exact (reject_when_no_rows 202
           (orm_destroy (model_ops (model this)) condition) d).
Qed.

End Methods.

(* ===================================================================== *)
(** ** What [_getOptions] builds *)
(* ===================================================================== *)

Section Options.
Context {JN : JsNumber} {db model_ref : Type} {H : Host db model_ref}.
Implicit Types (this : Base model_ref) (inc : include_map model_ref)
  (options : obj) (k n : string).

Lemma mem_In k ks : mem k ks = true <-> In k ks.
Proof.
  unfold mem. rewrite existsb_exists. split.
  - intros (x & Hx & E). apply String.eqb_eq in E. now subst.
  - intros Hk. exists k. split; [assumption | apply String.eqb_refl].
Qed.

Lemma has_key_In inc n : has_key inc n = true <-> In n (keys inc).
Proof.
  unfold has_key, keys. rewrite existsb_exists, in_map_iff. split.
  - intros (kv & Hkv & E). apply String.eqb_eq in E. exists kv. now split.
  - intros (kv & E & Hkv). exists kv. split; [assumption|].
    apply String.eqb_eq. now symmetry.
Qed.

Lemma keys_set_field inc n (f : entry_field model_ref) k :
  In k (keys (set_field inc n f)) <-> In k (keys inc) \/ k = n.
Proof.
  unfold set_field. destruct (has_key inc n) eqn:E.
  - apply has_key_In in E.
    assert (Hsame : keys (map (fun kv => if String.eqb n (fst kv)
                                         then (fst kv, assign f (snd kv))
                                         else kv) inc) = keys inc).
    { unfold keys. rewrite map_map. apply map_ext.
      intros kv. destruct (String.eqb n (fst kv)); reflexivity. }
    rewrite Hsame. split; [tauto|]. intros [Hk | ->]; assumption.
  - unfold keys. rewrite map_app, in_app_iff. simpl. intuition (subst; auto).
Qed.

Lemma keys_set inc n (f : entry_field model_ref) k :
  Lodash.plain_name n = true ->
  (In k (keys (set inc n f))
   <-> In k (keys inc) \/ (k = n /\ refused k = false)).
Proof.
  intros Hn. unfold set. rewrite Hn. destruct (refused n) eqn:E.
  - split; [tauto|]. intros [Hk | [-> Hr]]; [assumption | congruence].
  - rewrite keys_set_field. split.
    + intros [Hk | ->]; tauto.
    + intros [Hk | [-> _]]; tauto.
Qed.

Lemma relation_is_plain this (name : value) :
  forallb Lodash.plain_name (relations this) = true ->
  is_relation this name = true ->
  Lodash.plain_name (ToString name) = true.
Proof.
  intros Hrel Hname. destruct name; simpl in Hname; try discriminate.
  apply existsb_exists in Hname as (r & Hr & E).
  apply String.eqb_eq in E. subst r. simpl.
  rewrite forallb_forall in Hrel. now apply Hrel.
Qed.

Lemma keys_include_step this inc (val name : value) k :
  forallb Lodash.plain_name (relations this) = true ->
  (In k (keys (include_step this inc val name))
   <-> In k (keys inc)
       \/ (In k (relation_names this [(name, val)]) /\ refused k = false)).
Proof.
  intros Hrel. unfold include_step, relation_names, flat_map, fst.
  destruct (is_relation this name) eqn:E; simpl; [|tauto].
  pose proof (relation_is_plain this name Hrel E) as Hn.
  destruct (truthy _); rewrite !keys_set by exact Hn;
    intuition (subst; auto).
Qed.

Lemma keys_include_fold this (es : list (value * value)) inc k :
  forallb Lodash.plain_name (relations this) = true ->
  (In k (keys (fold_left (fun acc kv => include_step this acc (snd kv) (fst kv))
                 es inc))
   <-> In k (keys inc) \/ (In k (relation_names this es) /\ refused k = false)).
Proof.
  intros Hrel. revert inc.
  induction es as [|[name val] es IH]; intros inc; simpl.
  - tauto.
  - rewrite IH, keys_include_step by exact Hrel.
    unfold relation_names. simpl. rewrite app_nil_r, in_app_iff. tauto.
Qed.

Lemma keys_include_models (names : list value) inc k :
  forallb Lodash.plain_name (map ToString names) = true ->
  (In k (keys (fold_left include_model names inc))
   <-> In k (keys inc) \/ (In k (map ToString names) /\ refused k = false)).
Proof.
  revert inc. induction names as [|name names IH]; intros inc Hplain; simpl.
  - tauto.
  - simpl in Hplain. apply andb_true_iff in Hplain as [Hn Hrest].
    rewrite IH by exact Hrest. unfold include_model.
    rewrite keys_set by exact Hn. split; intros; intuition (subst; auto).
Qed.

Lemma order_step_eq this inc (ord : list (order_item model_ref))
    (val name : value) :
  order_step this (inc, ord) val name
  = if is_relation this name
    then (set inc (ToString name) (FModel (models (ToString name))), ord)
    else (inc, ord ++ [OrderBy name val]).
Proof. reflexivity. Qed.

Lemma order_fold this (es : list (value * value)) inc
    (ord : list (order_item model_ref)) k :
  forallb Lodash.plain_name (relations this) = true ->
  let acc := fold_left (fun acc kv => order_step this acc (snd kv) (fst kv))
               es (inc, ord) in
  (In k (keys (fst acc))
   <-> In k (keys inc) \/ (In k (relation_names this es) /\ refused k = false)).
Proof.
  intros Hrel. revert inc ord.
  induction es as [|[name val] es IH]; intros inc ord;
    cbn [fold_left fst snd].
  - simpl. tauto.
  - rewrite order_step_eq. unfold relation_names.
    cbn [flat_map fst snd]. fold (relation_names this es).
    destruct (is_relation this name) eqn:E; rewrite IH; simpl.
    + rewrite keys_set by (now apply (relation_is_plain this)).
      intuition (subst; auto).
    + tauto.
Qed.

(** The [order] array holds what [order.push] added, nothing else. *)
Lemma order_fold_pushed this (es : list (value * value)) inc
    (ord : list (order_item model_ref)) :
  snd (fold_left (fun acc kv => order_step this acc (snd kv) (fst kv))
         es (inc, ord))
  = ord ++ pushed_order this es.
Proof.
  revert inc ord. induction es as [|[name val] es IH]; intros inc ord;
    cbn [fold_left fst snd].
  - simpl. now rewrite app_nil_r.
  - rewrite order_step_eq. unfold pushed_order.
    cbn [flat_map fst snd]. fold (pushed_order this es).
    destruct (is_relation this name); rewrite IH; simpl.
    + reflexivity.
    + now rewrite <- app_assoc.
Qed.

Lemma getOptions_order this options :
  order (_getOptions this options)
  = pushed_order this (Lodash.entries (prop options ORDER)).
Proof.
  unfold _getOptions.
  destruct (Lodash.reduce (prop options ORDER) _ _) as [inc ord] eqn:E.
  simpl. apply (f_equal snd) in E. simpl in E. subst ord.
  unfold Lodash.reduce. now rewrite order_fold_pushed.
Qed.

Lemma getOptions_where this options :
  where_ (_getOptions this options)
  = Lodash.omit (VObj options) (keys (built_include this options) ++ IGNORE).
Proof.
  unfold _getOptions, built_include.
  destruct (Lodash.reduce (prop options ORDER) _ _) as [inc ord].
  reflexivity.
Qed.

Lemma getOptions_include this options :
  include (_getOptions this options) = values (built_include this options).
Proof.
  unfold _getOptions, built_include.
  destruct (Lodash.reduce (prop options ORDER) _ _) as [inc ord].
  reflexivity.
Qed.

(** With plain names, the keys of [include] are the names passed to
    [_.set] that it does not refuse. *)
Lemma keys_built_include this options k :
  forallb Lodash.plain_name (relations this) = true ->
  forallb Lodash.plain_name (map ToString (includeModels options)) = true ->
  (In k (keys (built_include this options)) <-> In k (written_names this options)).
Proof.
  intros Hrel Hinc.
  unfold written_names. rewrite filter_In, negb_true_iff.
  unfold built_include, include_names, Lodash.reduce.
  rewrite (order_fold this _ _ [] k Hrel).
  rewrite keys_include_models by exact Hinc.
  rewrite keys_include_fold by exact Hrel.
  rewrite !in_app_iff. simpl. tauto.
Qed.

Lemma lookup_omit options (ks : list string) k :
  lookup k (Lodash.omit (VObj options) ks)
  = if mem k ks then None else lookup k options.
Proof.
  unfold Lodash.omit. simpl.
  induction options as [|[k' v] rest IH]; simpl.
  - now destruct (mem k ks).
  - fold (mem k' ks). destruct (mem k' ks) eqn:E'; simpl.
    + rewrite IH. destruct (String.eqb k k') eqn:E; [|reflexivity].
      apply String.eqb_eq in E. subst k'. now rewrite E'.
    + destruct (String.eqb k k') eqn:E.
      * apply String.eqb_eq in E. subst k'. now rewrite E'.
      * exact IH.
Qed.

End Options.

Section OptionClaims.
Context {JN : JsNumber} {db model_ref : Type} {H : Host db model_ref}.
Implicit Types (this : Base model_ref) (options : obj) (k : string).


(** C8. The options carry a numeric [limit] and [offset]: the number a
    given (defined) parameter coerces to, and 100 and 0 when the
    parameter is missing or undefined. *)
Theorem limit_offset_coerced_or_default this options :
  (forall v, lookup LIMIT options = Some v -> v <> VUndefined ->
     limit (_getOptions this options) = Some (ToNumber v))
  /\ (lookup LIMIT options = None \/ lookup LIMIT options = Some VUndefined ->
      limit (_getOptions this options) = Some (of_Z 100))
  /\ (forall v, lookup OFFSET options = Some v -> v <> VUndefined ->
        offset (_getOptions this options) = Some (ToNumber v))
  /\ (lookup OFFSET options = None \/ lookup OFFSET options = Some VUndefined ->
      offset (_getOptions this options) = Some (of_Z 0)).
Proof.
  destruct (getOptions_limit_offset this options) as [-> ->].
  unfold Lodash.get, prop. repeat split.
  - intros v -> Hv. destruct v; congruence.
  - intros [-> | ->]; reflexivity.
  - intros v -> Hv. destruct v; congruence.
  - intros [-> | ->]; reflexivity.
Qed.

End OptionClaims.

(* ===================================================================== *)
(** ** The sample application at work *)
(* ===================================================================== *)

Module Run.
Import Sample.

(** The controller of the sample is the one the constructor builds. *)
Example constructor_users : constructor "User" = Some users.
Proof. reflexivity. Qed.

Lemma find_resolves_data_and_meta_run :
  exists l o : number,
    limit (_getOptions users (paramsToTree page)) = Some l
    /\ offset (_getOptions users (paramsToTree page)) = Some o
    /\ find users page rows
       = (Resolved
            (VObj [("data", VArr [row_value (2%Z, "bob"); row_value (3%Z, "cy")]);
                   ("meta",
                    VObj [("count", VNum (of_Z 2));
                          ("total", VNum (of_Z 3));
                          ("limit", VNum l);
                          ("offset", VNum o)])]), rows)
    /\ where_ (omit_limit_offset (_getOptions users (paramsToTree page)))
       = where_ (_getOptions users (paramsToTree page))
    /\ include (omit_limit_offset (_getOptions users (paramsToTree page)))
       = include (_getOptions users (paramsToTree page))
    /\ limit (omit_limit_offset (_getOptions users (paramsToTree page))) = None
    /\ offset (omit_limit_offset (_getOptions users (paramsToTree page))) = None.
Proof.
  apply (find_resolves_data_and_meta users page rows rows rows
           [row_value (2%Z, "bob"); row_value (3%Z, "cy")] (VNum (of_Z 3)));
    reflexivity.
Defined.

Lemma findById_404_iff_no_record_run :
  ((exists d', findById users (VNum (of_Z 7)) [] rows = (Rejected (HttpError 404), d'))
   <-> (exists v d',
          orm_findById (model_ops (model users)) (VNum (of_Z 7))
            (_getOptions users []) rows = (Resolved v, d')
          /\ no_record v))
  /\ (forall v d',
        orm_findById (model_ops (model users)) (VNum (of_Z 7))
          (_getOptions users []) rows = (Resolved v, d') ->
        is_record v = true ->
        findById users (VNum (of_Z 7)) [] rows
          = (Resolved (VObj [("data", v)]), d')).
Proof.
  apply (findById_404_iff_no_record users (VNum (of_Z 7)) [] rows).
  intros v d' E.
  assert (Hv : Resolved (E := orm_error) VNull = Resolved v)
    by exact (f_equal fst E).
  injection Hv as <-. left. left. reflexivity.
Defined.

Lemma create_resolves_or_falls_back_run :
  create users bob rows
  = (Resolved (VObj [("data", row_value (2%Z, "bob"))]), rows).
Proof.
  apply (proj1 (proj2 (create_resolves_or_falls_back users bob rows))
           "name must be unique" rows (row_value (2%Z, "bob")) rows);
    reflexivity.
Defined.

Lemma create_fallback_without_record_run :
  create users bob_99 rows = (Resolved (VObj [("data", VNull)]), rows).
Proof.
  apply (create_fallback_without_record users bob_99 rows rows rows
           "name must be unique"); reflexivity.
Defined.

Lemma remove_202_iff_no_row_run :
  ((exists d', remove users (VObj [("id", VNum (of_Z 2))]) rows
               = (Rejected (HttpError 202), d'))
   <-> (exists d',
          orm_destroy (model_ops (model users)) (VObj [("id", VNum (of_Z 2))]) rows
          = (Resolved (row_count 0), d')))
  /\ ((exists d', remove users (VObj [("id", VNum (of_Z 2))]) rows
                  = (Resolved VUndefined, d'))
      <-> (exists n d',
             orm_destroy (model_ops (model users)) (VObj [("id", VNum (of_Z 2))]) rows
             = (Resolved (row_count (S n)), d'))).
Proof.
  apply (remove_202_iff_no_row users (VObj [("id", VNum (of_Z 2))]) rows).
  intros v d' E.
  assert (Hv : Resolved (E := orm_error) (row_count 1) = Resolved v)
    by exact (f_equal fst E).
  injection Hv as <-. exists 1%nat. reflexivity.
Defined.


Lemma limit_offset_coerced_or_default_run :
  limit (_getOptions users page) = Some (ToNumber (VStr "2")).
Proof.
  apply (proj1 (limit_offset_coerced_or_default users page) (VStr "2"));
    [reflexivity | discriminate].
Defined.


(** C7. An [order] with a column and an association: the column becomes
    a pair of the order list, the association is added to [include], and
    the triples of the association are missing from the order list. *)
Theorem order_lacks_association_triples :
  order (_getOptions users ordered) = [OrderBy (VStr "name") (VStr "asc")]
  /\ include (_getOptions users ordered)
     = [{| inc_model := Some "Post"; inc_attributes := None; inc_where := None |}]
  /\ ~ In (OrderByAssociation (Some "Post") (VStr "title") (VStr "desc"))
          (order (_getOptions users ordered)).
Proof.
  split; [reflexivity|]. split; [reflexivity|].
  change (~ In (OrderByAssociation (Some "Post") (VStr "title") (VStr "desc"))
            [OrderBy (VStr "name") (VStr "asc")]).
  intros [Hin | []]. discriminate.
Qed.


End Run.

(* ===================================================================== *)
(** ** More about the options and the methods *)
(* ===================================================================== *)

Section OptionsShape.
Context {JN : JsNumber} {db model_ref : Type} {H : Host db model_ref}.
Implicit Types (this : Base model_ref) (inc : include_map model_ref)
  (options : obj) (k n : string).

(** The options, field by field. *)
Lemma getOptions_fields this options :
  _getOptions this options
  = {| attributes :=
         Lodash.difference (chosen_attributes this options)
           [prop options EXCLUDE; defaultExclude this];
       where_ := Lodash.omit (VObj options)
                   (keys (built_include this options) ++ IGNORE);
       include := values (built_include this options);
       order := pushed_order this (Lodash.entries (prop options ORDER));
       limit := Some (ToNumber (Lodash.get options LIMIT (VNum (of_Z Base_LIMIT))));
       offset := Some (ToNumber (Lodash.get options OFFSET (VNum (of_Z Base_OFFSET))));
       subQuery := false |}.
Proof.
  pose proof (getOptions_order this options) as Ho.
  unfold _getOptions, built_include, chosen_attributes in *.
  destruct (Lodash.reduce (prop options ORDER) _ _) as [inc ord].
  simpl in *. now rewrite Ho.
Qed.

Lemma filter_all {A : Type} (f : A -> bool) (l : list A) :
  (forall x, In x l -> f x = true) -> filter f l = l.
Proof.
  induction l as [|x l IH]; intros Hall; simpl; [reflexivity|].
  rewrite (Hall x (or_introl eq_refl)). f_equal.
  apply IH. intros y Hy. apply Hall. now right.
Qed.

(** X1. With plain relation and include names, a parameter [exclude]
    that is not a key of the include object stays in [where], with the
    value the parameters give it. *)
Theorem exclude_stays_in_where this options :
  forallb Lodash.plain_name (relations this) = true ->
  forallb Lodash.plain_name (map ToString (includeModels options)) = true ->
  ~ In EXCLUDE (include_names this options) ->
  lookup EXCLUDE (where_ (_getOptions this options)) = lookup EXCLUDE options.
Proof.
  intros Hrel Hinc Hout.
  rewrite getOptions_where, lookup_omit.
  destruct (mem EXCLUDE (keys (built_include this options) ++ IGNORE)) eqn:E;
    [|reflexivity].
  apply mem_In, in_app_iff in E. destruct E as [E | E].
  - apply (keys_built_include this options EXCLUDE Hrel Hinc) in E.
    unfold written_names in E. apply filter_In in E as [E _]. contradiction.
  - simpl in E. repeat (destruct E as [E | E]; [discriminate|]). destruct E.
Qed.

(** X2. The order list holds a pair [[name, direction]] exactly for the
    entries of [order] whose key is not a relation, and never a triple
    of an association. *)
Theorem order_holds_column_pairs_only this options :
  (forall name direction,
     In (OrderBy name direction) (order (_getOptions this options))
     <-> In (name, direction) (Lodash.entries (prop options ORDER))
         /\ is_relation this name = false)
  /\ (forall orderModel field direction,
        ~ In (OrderByAssociation orderModel field direction)
             (order (_getOptions this options))).
Proof.
  rewrite getOptions_order. unfold pushed_order. split.
  - intros name direction. rewrite in_flat_map. split.
    + intros ([n v] & Hin & Hitem). simpl in Hitem.
      destruct (is_relation this n) eqn:E; simpl in Hitem; [contradiction|].
      destruct Hitem as [Hitem | []]. injection Hitem as <- <-. now split.
    + intros [Hin Hrel]. exists (name, direction). split; [assumption|].
      simpl. rewrite Hrel. now left.
  - intros orderModel field direction Hin.
    apply in_flat_map in Hin as ([n v] & _ & Hitem). simpl in Hitem.
    destruct (is_relation this n); simpl in Hitem; [contradiction|].
    destruct Hitem as [Hitem | []]. discriminate.
Qed.

(** X3. Every attribute of the options is one of the chosen attributes,
    and a name listed in an [exclude] array, of the parameters or of the
    controller's default, is not among them. *)
Theorem excluded_attributes_are_left_out this options :
  (forall a, In a (attributes (_getOptions this options)) ->
     In a (chosen_attributes this options))
  /\ (forall (ex : list value) s,
        prop options EXCLUDE = VArr ex \/ defaultExclude this = VArr ex ->
        In (VStr s) ex ->
        ~ In (VStr s) (attributes (_getOptions this options))).
Proof.
  rewrite getOptions_fields. simpl. unfold Lodash.difference. split.
  - intros a Ha. now apply filter_In in Ha.
  - intros ex s Hex Hs Hin. apply filter_In in Hin as [_ Hkept].
    apply negb_true_iff in Hkept.
    assert (Hthere : existsb (same_value_zero (VStr s))
                       (flat_map Lodash.array_like_object
                          [prop options EXCLUDE; defaultExclude this]) = true).
    { apply existsb_exists. exists (VStr s). split.
      - apply in_flat_map. destruct Hex as [Hex | Hex].
        + exists (prop options EXCLUDE). split; [now left|]. now rewrite Hex.
        + exists (defaultExclude this). split; [right; now left|]. now rewrite Hex.
      - simpl. apply String.eqb_refl. }
    congruence.
Qed.

(** X4. An [exclude] that is a string, not an array, excludes nothing:
    with no default exclusion, the attributes are the chosen ones, the
    named one included. *)
Theorem string_exclude_excludes_nothing this options s :
  prop options EXCLUDE = VStr s ->
  defaultExclude this = VNull ->
  attributes (_getOptions this options) = chosen_attributes this options.
Proof.
  intros Hex Hdef. rewrite getOptions_fields. simpl.
  unfold Lodash.difference. rewrite Hex, Hdef. simpl.
  now apply filter_all.
Qed.

(** X5. A controller as its constructor leaves it, asked for options
    with no parameter at all: every attribute of the model, no filter,
    no include, no order, the first 100 rows. *)
Theorem constructed_defaults (name : string) this :
  constructor name = Some this ->
  _getOptions this []
  = {| attributes := map VStr (orm_attributes (model_ops (model this)));
       where_ := [];
       include := [];
       order := [];
       limit := Some (of_Z 100);
       offset := Some (of_Z 0);
       subQuery := false |}.
Proof.
  unfold constructor. destruct (models name) as [m|]; [|discriminate].
  intros Hthis. injection Hthis as <-.
  rewrite getOptions_fields. unfold chosen_attributes. simpl.
  unfold Lodash.difference. simpl. f_equal.
  now apply filter_all.
Qed.

(** *** The include object *)

Lemma keys_set_field_eq inc n (f : entry_field model_ref) :
  keys (set_field inc n f) = if has_key inc n then keys inc else keys inc ++ [n].
Proof.
  unfold set_field. destruct (has_key inc n).
  - unfold keys. rewrite map_map. apply map_ext.
    intros kv. destruct (String.eqb n (fst kv)); reflexivity.
  - unfold keys. now rewrite map_app.
Qed.

Lemma has_key_set_field inc n (f : entry_field model_ref) :
  has_key (set_field inc n f) n = true.
Proof. apply has_key_In, keys_set_field. now right. Qed.

Lemma well_keyed_set_field inc n (f : entry_field model_ref) :
  well_keyed inc ->
  (forall m, f = FModel m -> m = models n) ->
  has_key inc n = true \/ f = FModel (models n) ->
  well_keyed (set_field inc n f).
Proof.
  intros [Hnodup Hmodel] Hkeeps Hf. split.
  - rewrite keys_set_field_eq. destruct (has_key inc n) eqn:E; [assumption|].
    apply NoDup_app; [assumption | repeat constructor; intros [] |].
    intros k Hk [<- | []]. apply has_key_In in Hk. congruence.
  - intros k e Hin. unfold set_field in Hin.
    destruct (has_key inc n) eqn:E.
    + apply in_map_iff in Hin as ([k' e'] & Heq & Hin'). simpl in Heq.
      destruct (String.eqb n k') eqn:Ek.
      * apply String.eqb_eq in Ek. subst k'. injection Heq as <- <-.
        specialize (Hmodel n e' Hin').
        destruct f as [m | a | w]; simpl; try assumption.
        now apply Hkeeps.
      * injection Heq as <- <-. now apply Hmodel.
    + apply in_app_iff in Hin as [Hin | [Heq | []]].
      * now apply Hmodel.
      * injection Heq as <- <-.
        destruct Hf as [Hf | ->]; [discriminate | reflexivity].
Qed.

Lemma well_keyed_set_model inc n :
  Lodash.plain_name n = true ->
  well_keyed inc -> well_keyed (set inc n (FModel (models n))).
Proof.
  intros Hn Hw. unfold set. rewrite Hn.
  destruct (refused n); [assumption|].
  apply well_keyed_set_field; [assumption | | now right].
  intros m Hm. now injection Hm.
Qed.

Lemma well_keyed_set_more inc n (f : entry_field model_ref) :
  Lodash.plain_name n = true ->
  (forall m, f <> FModel m) ->
  has_key inc n = true ->
  well_keyed inc -> well_keyed (set inc n f).
Proof.
  intros Hn Hf Hkey Hw. unfold set. rewrite Hn.
  destruct (refused n); [assumption|].
  apply well_keyed_set_field; [assumption | | now left].
  intros m Hm. destruct (Hf m Hm).
Qed.

Lemma has_key_set inc n (f : entry_field model_ref) :
  Lodash.plain_name n = true -> refused n = false ->
  has_key (set inc n f) n = true.
Proof.
  intros Hn Hr. unfold set. rewrite Hn, Hr. apply has_key_set_field.
Qed.

Lemma set_refused inc n (f : entry_field model_ref) :
  Lodash.plain_name n = true -> refused n = true -> set inc n f = inc.
Proof. intros Hn Hr. unfold set. now rewrite Hn, Hr. Qed.

Lemma well_keyed_include_step this inc (val name : value) :
  forallb Lodash.plain_name (relations this) = true ->
  well_keyed inc -> well_keyed (include_step this inc val name).
Proof.
  intros Hrel Hw. unfold include_step.
  destruct (is_relation this name) eqn:E; [|assumption].
  pose proof (relation_is_plain this name Hrel E) as Hn.
  destruct (refused (ToString name)) eqn:Hr.
  { destruct (truthy _); now rewrite !set_refused. }
  pose proof (well_keyed_set_model inc (ToString name) Hn Hw) as Hw1.
  pose proof (has_key_set inc (ToString name)
                (FModel (models (ToString name))) Hn Hr) as Hk1.
  destruct (truthy _).
  - apply well_keyed_set_more; try assumption; [discriminate | | ].
    + now apply has_key_set.
    + apply well_keyed_set_more; try assumption. discriminate.
  - apply well_keyed_set_more; try assumption. discriminate.
Qed.

Lemma well_keyed_built_include this options :
  forallb Lodash.plain_name (relations this) = true ->
  forallb Lodash.plain_name (map ToString (includeModels options)) = true ->
  well_keyed (built_include this options).
Proof.
  intros Hrel Hinc. unfold built_include, Lodash.reduce.
  assert (H1 : forall es inc, well_keyed inc ->
            well_keyed (fold_left
                          (fun acc kv => include_step this acc (snd kv) (fst kv))
                          es inc)).
  { induction es as [|[name val] es IH]; intros inc Hw; simpl; [assumption|].
    apply IH. now apply well_keyed_include_step. }
  assert (H2 : forall names inc,
            forallb Lodash.plain_name (map ToString names) = true ->
            well_keyed inc -> well_keyed (fold_left include_model names inc)).
  { induction names as [|name names IH]; intros inc Hp Hw; simpl; [assumption|].
    simpl in Hp. apply andb_true_iff in Hp as [Hn Hp].
    apply IH; [assumption|]. now apply well_keyed_set_model. }
  assert (H3 : forall es inc (ord : list (order_item model_ref)),
            well_keyed inc ->
            well_keyed (fst (fold_left
                               (fun acc kv => order_step this acc (snd kv) (fst kv))
                               es (inc, ord)))).
  { induction es as [|[name val] es IH]; intros inc ord Hw;
      cbn [fold_left fst snd]; [assumption|].
    rewrite order_step_eq. destruct (is_relation this name) eqn:E.
    - apply IH. apply well_keyed_set_model; [|assumption].
      now apply (relation_is_plain this).
    - now apply IH. }
  apply H3, H2; [assumption|]. apply H1.
  split; [constructor | intros n e []].
Qed.

(** X6. With plain relation and include names, the include object has
    one entry for each name passed to [_.set] that [_.set] does not
    refuse and no other, no name twice, and every entry holds the model
    the registry has under its name (undefined when it has none); the
    [include] option lists these entries. *)
Theorem include_one_entry_per_name this options :
  forallb Lodash.plain_name (relations this) = true ->
  forallb Lodash.plain_name (map ToString (includeModels options)) = true ->
  NoDup (keys (built_include this options))
  /\ (forall n, In n (keys (built_include this options))
                <-> In n (written_names this options))
  /\ (forall n e, In (n, e) (built_include this options) ->
                  inc_model e = models n)
  /\ include (_getOptions this options) = values (built_include this options).
Proof.
  intros Hrel Hinc.
  destruct (well_keyed_built_include this options Hrel Hinc) as [Hnodup Hmodel].
  split; [assumption|]. split.
  - intros n. now apply keys_built_include.
  - split; [assumption | apply getOptions_include].
Qed.

(** *** The entry of a relation *)

Lemma entry_of_none inc n : has_key inc n = false -> entry_of inc n = None.
Proof.
  unfold has_key, entry_of. induction inc as [|kv inc IH]; simpl; [reflexivity|].
  destruct (String.eqb n (fst kv)); simpl; [discriminate | exact IH].
Qed.

Lemma entry_of_In inc n e : entry_of inc n = Some e -> In (n, e) inc.
Proof.
  unfold entry_of. destruct (List.find _ inc) as [[k e']|] eqn:E; [|discriminate].
  simpl. intros He. injection He as <-.
  apply find_some in E as [Hin Hk]. simpl in Hk.
  apply String.eqb_eq in Hk. now subst k.
Qed.

Lemma has_key_entry_of inc n :
  has_key inc n = true -> exists e, entry_of inc n = Some e.
Proof.
  unfold has_key, entry_of. induction inc as [|kv inc IH]; simpl; [discriminate|].
  destruct (String.eqb n (fst kv)); simpl; [intros _; eauto | exact IH].
Qed.

Lemma entry_of_update inc n (f : entry_field model_ref) k :
  entry_of (map (fun kv => if String.eqb n (fst kv)
                           then (fst kv, assign f (snd kv)) else kv) inc) k
  = if String.eqb k n
    then option_map (assign f) (entry_of inc n)
    else entry_of inc k.
Proof.
  unfold entry_of. induction inc as [|[k' e'] inc IH]; simpl.
  - now destruct (String.eqb k n).
  - destruct (String.eqb n k') eqn:En; simpl.
    + apply String.eqb_eq in En. subst k'.
      destruct (String.eqb k n) eqn:Ek; simpl; [reflexivity|].
      rewrite IH. reflexivity.
    + destruct (String.eqb k k') eqn:Ek; simpl.
      * apply String.eqb_eq in Ek. subst k'.
        rewrite String.eqb_sym in En. now rewrite En.
      * exact IH.
Qed.

Lemma entry_of_append inc n (e : include_entry model_ref) k :
  entry_of (inc ++ [(n, e)]) k
  = match entry_of inc k with
    | Some e' => Some e'
    | None => if String.eqb k n then Some e else None
    end.
Proof.
  unfold entry_of. induction inc as [|[k' e'] inc IH]; simpl.
  - now destruct (String.eqb k n).
  - destruct (String.eqb k k'); simpl; [reflexivity | exact IH].
Qed.

Lemma entry_of_set_field inc n (f : entry_field model_ref) k :
  entry_of (set_field inc n f) k
  = if String.eqb k n
    then Some (assign f (match entry_of inc n with
                         | Some e => e
                         | None => empty_entry
                         end))
    else entry_of inc k.
Proof.
  unfold set_field. destruct (has_key inc n) eqn:E.
  - rewrite entry_of_update. destruct (String.eqb k n); [|reflexivity].
    destruct (has_key_entry_of inc n E) as [e ->]. reflexivity.
  - rewrite entry_of_append. destruct (String.eqb k n) eqn:Ek.
    + apply String.eqb_eq in Ek. subst k.
      now rewrite (entry_of_none inc n E).
    + now destruct (entry_of inc k).
Qed.

Lemma entry_of_set inc n (f : entry_field model_ref) k :
  Lodash.plain_name n = true ->
  entry_of (set inc n f) k
  = if refused n then entry_of inc k
    else if String.eqb k n
    then Some (assign f (match entry_of inc n with
                         | Some e => e
                         | None => empty_entry
                         end))
    else entry_of inc k.
Proof.
  intros Hn. unfold set. rewrite Hn.
  destruct (refused n); [reflexivity | apply entry_of_set_field].
Qed.

(** A step for another name leaves the entry alone. *)
Lemma entry_of_include_step_other this inc (val name : value) k :
  forallb Lodash.plain_name (relations this) = true ->
  name <> VStr k ->
  entry_of (include_step this inc val name) k = entry_of inc k.
Proof.
  intros Hrel Hname. unfold include_step.
  destruct (is_relation this name) eqn:E; [|reflexivity].
  pose proof (relation_is_plain this name Hrel E) as Hn.
  assert (Hk : String.eqb k (ToString name) = false).
  { apply String.eqb_neq. intros ->.
    destruct name; simpl in E; try discriminate. now apply Hname. }
  destruct (truthy _); rewrite !entry_of_set by exact Hn;
    destruct (refused (ToString name)); now rewrite ?Hk.
Qed.

(** The step for a relation that has no entry yet writes its entry. *)
Lemma entry_of_include_step_fresh this inc (val : value) k :
  forallb Lodash.plain_name (relations this) = true ->
  is_relation this (VStr k) = true ->
  refused k = false ->
  entry_of inc k = None ->
  entry_of (include_step this inc val (VStr k)) k = Some (relation_entry k val).
Proof.
  intros Hrel E Hr Hnone. unfold include_step, relation_entry. rewrite E.
  pose proof (relation_is_plain this (VStr k) Hrel E) as Hn. simpl in Hn.
  cbn [ToString].
  destruct (truthy _); rewrite !entry_of_set by exact Hn;
    rewrite !Hr, !String.eqb_refl, Hnone; reflexivity.
Qed.

Lemma entries_of_object options :
  Lodash.array_like (VObj options) = None ->
  Lodash.entries (VObj options)
  = map (fun kv => (VStr (fst kv), snd kv)) options.
Proof. intros Hobj. unfold Lodash.entries. now rewrite Hobj. Qed.

Lemma entry_of_fold_absent this (props : obj) inc k :
  forallb Lodash.plain_name (relations this) = true ->
  ~ In k (map fst props) ->
  entry_of (fold_left (fun acc kv => include_step this acc (snd kv) (fst kv))
              (map (fun kv => (VStr (fst kv), snd kv)) props) inc) k
  = entry_of inc k.
Proof.
  intros Hrel. revert inc.
  induction props as [|[k' v'] props IH]; intros inc Hout; simpl; [reflexivity|].
  simpl in Hout. rewrite IH by tauto.
  apply entry_of_include_step_other; [assumption|].
  intros Heq. injection Heq as ->. tauto.
Qed.

Lemma entry_of_fold_present this (props : obj) inc k (val : value) :
  forallb Lodash.plain_name (relations this) = true ->
  NoDup (map fst props) ->
  In (k, val) props ->
  is_relation this (VStr k) = true ->
  refused k = false ->
  entry_of inc k = None ->
  entry_of (fold_left (fun acc kv => include_step this acc (snd kv) (fst kv))
              (map (fun kv => (VStr (fst kv), snd kv)) props) inc) k
  = Some (relation_entry k val).
Proof.
  intros Hrel. revert inc.
  induction props as [|[k' v'] props IH]; intros inc Hnodup Hin E Hr Hnone;
    simpl in *; [contradiction|].
  inversion Hnodup as [|? ? Hfresh Hrest]; subst.
  destruct Hin as [Heq | Hin].
  - injection Heq as -> ->.
    rewrite entry_of_fold_absent by assumption.
    now apply entry_of_include_step_fresh.
  - assert (Hk : k' <> k).
    { intros ->. apply Hfresh. apply in_map_iff. now exists (k, val). }
    apply IH; try assumption.
    rewrite entry_of_include_step_other; [assumption | assumption |].
    intros Heq. injection Heq as ->. now apply Hk.
Qed.

Lemma entry_kept_by_set_model inc n k (e : include_entry model_ref) :
  Lodash.plain_name n = true ->
  entry_of inc k = Some e ->
  inc_model e = models k ->
  entry_of (set inc n (FModel (models n))) k = Some e.
Proof.
  intros Hn He Hmodel. rewrite entry_of_set by exact Hn.
  destruct (refused n); [assumption|].
  destruct (String.eqb k n) eqn:Ek; [|assumption].
  apply String.eqb_eq in Ek. subst n. rewrite He.
  destruct e; simpl in *. now subst.
Qed.

Lemma relation_entry_model k (val : value) :
  inc_model (relation_entry (model_ref := model_ref) k val) = models k.
Proof. unfold relation_entry. now destruct (truthy _). Qed.

(** X7. With plain relation and include names, in a parameter object
    with distinct keys and no numeric [length], a parameter [k: val]
    whose key is a relation that [_.set] does not refuse gives the
    include option one entry for [k]: the model of [k], [val] as its
    where clause, and, when [val] has truthy [attributes], those
    attributes taken out of the clause.  Naming [k] again under
    [include] or [order] leaves the entry as it is. *)
Theorem relation_parameter_becomes_include_entry this options k (val : value) :
  forallb Lodash.plain_name (relations this) = true ->
  forallb Lodash.plain_name (map ToString (includeModels options)) = true ->
  NoDup (map fst options) ->
  Lodash.array_like (VObj options) = None ->
  In (k, val) options ->
  In k (relations this) ->
  refused k = false ->
  entry_of (built_include this options) k = Some (relation_entry k val)
  /\ In (relation_entry k val) (include (_getOptions this options)).
Proof.
  intros Hrel Hinc Hnodup Hobj Hin Hk Hr.
  assert (E : is_relation this (VStr k) = true).
  { simpl. apply existsb_exists. exists k. split; [assumption|].
    apply String.eqb_refl. }
  assert (Hentry : entry_of (built_include this options) k
                   = Some (relation_entry k val)).
  { unfold built_include, Lodash.reduce. rewrite (entries_of_object options Hobj).
    assert (H2 : forall names inc,
              forallb Lodash.plain_name (map ToString names) = true ->
              entry_of inc k = Some (relation_entry k val) ->
              entry_of (fold_left include_model names inc) k
              = Some (relation_entry k val)).
    { induction names as [|name names IH]; intros inc Hp He; simpl; [assumption|].
      simpl in Hp. apply andb_true_iff in Hp as [Hn Hp].
      apply IH; [assumption|]. unfold include_model.
      apply entry_kept_by_set_model; [assumption | assumption |].
      apply relation_entry_model. }
    assert (H3 : forall es inc (ord : list (order_item model_ref)),
              entry_of inc k = Some (relation_entry k val) ->
              entry_of (fst (fold_left
                               (fun acc kv => order_step this acc (snd kv) (fst kv))
                               es (inc, ord))) k
              = Some (relation_entry k val)).
    { induction es as [|[name v] es IH]; intros inc ord He;
        cbn [fold_left fst snd]; [assumption|].
      rewrite order_step_eq. destruct (is_relation this name) eqn:En.
      - apply IH. apply entry_kept_by_set_model; [| assumption |].
        + now apply (relation_is_plain this).
        + apply relation_entry_model.
      - now apply IH. }
    apply H3, H2; [assumption|].
    now apply entry_of_fold_present. }
  split; [assumption|].
  rewrite getOptions_include. unfold values.
  apply in_map_iff. exists (k, relation_entry k val). split; [reflexivity|].
  now apply entry_of_In.
Qed.

(** *** The page and the count *)

Lemma lookup_middle (pre post : obj) key (v v' : value) k :
  k <> key ->
  lookup k (pre ++ (key, v) :: post) = lookup k (pre ++ (key, v') :: post).
Proof.
  intros Hk. apply String.eqb_neq in Hk.
  induction pre as [|[k' x] pre IH]; simpl.
  - now rewrite Hk.
  - destruct (String.eqb k k'); [reflexivity | exact IH].
Qed.

Lemma prop_middle (pre post : obj) key (v v' : value) k :
  k <> key ->
  prop (pre ++ (key, v) :: post) k = prop (pre ++ (key, v') :: post) k.
Proof. intros Hk. unfold prop. now rewrite (lookup_middle pre post key v v' k Hk). Qed.

Lemma index_key_not_page (i : nat) :
  index_key i <> LIMIT /\ index_key i <> OFFSET.
Proof.
  unfold index_key, LIMIT, OFFSET.
  destruct (Nat.to_uint i); simpl; split; discriminate.
Qed.

Lemma array_like_middle (pre post : obj) key (v v' : value) :
  key = LIMIT \/ key = OFFSET ->
  Lodash.array_like (VObj (pre ++ (key, v) :: post))
  = Lodash.array_like (VObj (pre ++ (key, v') :: post)).
Proof.
  intros Hkey. unfold Lodash.array_like.
  rewrite (lookup_middle pre post key v v' "length")
    by (destruct Hkey as [-> | ->]; discriminate).
  destruct (lookup "length" _) as [[| | | n | | |]|]; try reflexivity.
  destruct (num_as_length n) as [len|]; [|reflexivity].
  f_equal. apply map_ext. intros i. apply prop_middle.
  destruct (index_key_not_page i). destruct Hkey as [-> | ->]; assumption.
Qed.

Lemma reduce_include_middle this (pre post : obj) key (v v' : value) :
  key = LIMIT \/ key = OFFSET ->
  ~ In key (relations this) ->
  Lodash.reduce (VObj (pre ++ (key, v) :: post)) (include_step this) []
  = Lodash.reduce (VObj (pre ++ (key, v') :: post)) (include_step this) [].
Proof.
  intros Hkey Hrel. unfold Lodash.reduce, Lodash.entries.
  rewrite (array_like_middle pre post key v v' Hkey).
  destruct (Lodash.array_like _); [reflexivity|].
  assert (E : is_relation this (VStr key) = false).
  { simpl. destruct (existsb _ _) eqn:E; [|reflexivity].
    apply existsb_exists in E as (r & Hr & Heq).
    apply String.eqb_eq in Heq. now subst r. }
  assert (Hskip : forall inc x, include_step this inc x (VStr key) = inc).
  { intros inc x. unfold include_step. now rewrite E. }
  rewrite !map_app, !fold_left_app. cbn [map fold_left fst snd].
  now rewrite !Hskip.
Qed.

Lemma omit_middle (pre post : obj) key (v v' : value) (ks : list string) :
  In key ks ->
  Lodash.omit (VObj (pre ++ (key, v) :: post)) ks
  = Lodash.omit (VObj (pre ++ (key, v') :: post)) ks.
Proof.
  intros Hin. unfold Lodash.omit. simpl. rewrite !filter_app. simpl.
  apply mem_In in Hin. unfold mem in Hin. now rewrite Hin.
Qed.

(** X8. The options [find] counts with do not depend on the page: two
    parameter objects that differ in the value of [limit] only, or of
    [offset] only, give the same options once [limit] and [offset] are
    omitted, provided the key is not the name of a relation. *)
Theorem count_options_ignore_page this (pre post : obj) key (v v' : value) :
  key = LIMIT \/ key = OFFSET ->
  ~ In key (relations this) ->
  omit_limit_offset (_getOptions this (pre ++ (key, v) :: post))
  = omit_limit_offset (_getOptions this (pre ++ (key, v') :: post)).
Proof.
  intros Hkey Hrel.
  assert (Hprop : forall k, k <> key ->
            prop (pre ++ (key, v) :: post) k = prop (pre ++ (key, v') :: post) k).
  { intros k. apply prop_middle. }
  assert (Hother : INCLUDE <> key /\ ORDER <> key /\ ATTRIBUTES <> key
                   /\ EXCLUDE <> key).
  { destruct Hkey as [-> | ->]; repeat split; discriminate. }
  destruct Hother as (Hi & Ho & Ha & He).
  assert (Hinc : built_include this (pre ++ (key, v) :: post)
                 = built_include this (pre ++ (key, v') :: post)).
  { unfold built_include, includeModels.
    rewrite (reduce_include_middle this pre post key v v' Hkey Hrel).
    now rewrite (Hprop INCLUDE Hi), (Hprop ORDER Ho). }
  rewrite !getOptions_fields. unfold omit_limit_offset, chosen_attributes. simpl.
  rewrite Hinc, (Hprop ORDER Ho), (Hprop ATTRIBUTES Ha), (Hprop EXCLUDE He).
  f_equal. apply omit_middle. apply in_app_iff. right.
  destruct Hkey as [-> | ->]; simpl; tauto.
Qed.

End OptionsShape.

Section MethodsMore.
Context {JN : JsNumber} {db model_ref : Type} {H : Host db model_ref}.
Implicit Types (this : Base model_ref) (d : db) (v : value).

(** X9. [find] resolves exactly when both of its queries resolve; when
    one of them rejects and the other resolves, [find] rejects with that
    error, after both have run. *)
Theorem find_resolves_iff_both_do this (params : obj) d :
  ((exists v d', find this params d = (Resolved v, d'))
   <-> (exists data d1 total d2,
          orm_findAll (model_ops (model this))
            (_getOptions this (paramsToTree params)) d = (Resolved data, d1)
          /\ orm_count (model_ops (model this))
               (omit_limit_offset (_getOptions this (paramsToTree params))) d1
             = (Resolved total, d2)))
  /\ (forall e d1 total d2,
        orm_findAll (model_ops (model this))
          (_getOptions this (paramsToTree params)) d = (Rejected e, d1) ->
        orm_count (model_ops (model this))
          (omit_limit_offset (_getOptions this (paramsToTree params))) d1
          = (Resolved total, d2) ->
        find this params d = (Rejected (OrmError e), d2))
  /\ (forall data d1 e d2,
        orm_findAll (model_ops (model this))
          (_getOptions this (paramsToTree params)) d = (Resolved data, d1) ->
        orm_count (model_ops (model this))
          (omit_limit_offset (_getOptions this (paramsToTree params))) d1
          = (Rejected e, d2) ->
        find this params d = (Rejected (OrmError e), d2)).
Proof.
  unfold find. run_promise.
  destruct (orm_findAll _ _ d) as [[data | e] d1] eqn:E1.
  - destruct (orm_count _ _ d1) as [[total | e] d2] eqn:E2.
    + split; [|split].
      * split; intros _; [exists data, d1, total, d2; now split | eauto].
      * intros ? ? ? ? Eq. discriminate.
      * intros ? ? ? ? Eq1 Eq2. injection Eq1 as <- <-.
        rewrite E2 in Eq2. discriminate.
    + split; [|split].
      * split.
        -- intros (v & d' & Eq). discriminate.
        -- intros (? & ? & ? & ? & Eq1 & Eq2). injection Eq1 as <- <-.
           rewrite E2 in Eq2. discriminate.
      * intros ? ? ? ? Eq. discriminate.
      * intros ? ? ? ? Eq1 Eq2. injection Eq1 as <- <-.
        rewrite E2 in Eq2. now injection Eq2 as <- <-.
  - destruct (orm_count _ _ d1) as [[total | e2] d2] eqn:E2.
    + split; [|split].
      * split.
        -- intros (v & d' & Eq). discriminate.
        -- intros (? & ? & ? & ? & Eq1 & _). discriminate.
      * intros ? ? ? ? Eq1 Eq2. injection Eq1 as <- <-.
        rewrite E2 in Eq2. now injection Eq2 as <- <-.
      * intros ? ? ? ? Eq. discriminate.
    + split; [|split].
      * split.
        -- intros (v & d' & Eq). destruct count_rejects_first; discriminate.
        -- intros (? & ? & ? & ? & Eq1 & _). discriminate.
      * intros ? ? ? ? Eq1 Eq2. injection Eq1 as <- <-.
        rewrite E2 in Eq2. discriminate.
      * intros ? ? ? ? Eq. discriminate.
Qed.

(** X10. [create] never rejects with an [HttpError]: a rejection is an
    error of the ORM, either of the insert, and then not a
    [UniqueConstraintError], or of the fallback lookup that follows
    one. *)
Theorem create_rejects_with_orm_errors_only this (data : value) d err d' :
  create this data d = (Rejected err, d') ->
  exists e,
    err = OrmError e
    /\ ((orm_create (model_ops (model this)) data d = (Rejected e, d')
         /\ forall detail, e <> UniqueConstraintError detail)
        \/ (exists detail d1,
              orm_create (model_ops (model this)) data d
                = (Rejected (UniqueConstraintError detail), d1)
              /\ orm_findOne (model_ops (model this)) data d1
                 = (Rejected e, d'))).
Proof.
  unfold create. run_promise.
  destruct (orm_create _ data d) as [[created | [detail | detail]] d1]; simpl.
  - discriminate.
  - destruct (orm_findOne _ data d1) as [[found | e] d2] eqn:E; [discriminate|].
    intros Eq. injection Eq as <- <-. exists e. split; [reflexivity|].
    right. exists detail, d1. now split.
  - intros Eq. injection Eq as <- <-. exists (DatabaseError detail).
    split; [reflexivity|]. left. split; [reflexivity | discriminate].
Qed.

(** X11. An array is truthy whatever it holds: when the ORM resolves an
    update with an array, as [[affectedCount]], [update] resolves, for a
    count of zero too. *)
Theorem update_resolves_when_count_is_in_array this (id data : value) d d'
    (result : list value) :
  orm_update (model_ops (model this)) data (VObj [("id", id)]) d
    = (Resolved (VArr result), d') ->
  update this id data d = (Resolved VUndefined, d').
Proof. intros Hu. unfold update. run_promise. now rewrite Hu. Qed.

End MethodsMore.

Section OrderShape.
Context {JN : JsNumber} {db model_ref : Type} {H : Host db model_ref}.
Implicit Types (this : Base model_ref) (options : obj).

Lemma pushed_order_indexed this (idx : list nat) (items : list value) :
  pushed_order this
    (combine (map (fun i => VNum (of_Z (Z.of_nat i))) idx) items)
  = map (fun iv => OrderBy (VNum (of_Z (Z.of_nat (fst iv)))) (snd iv))
      (combine idx items).
Proof.
  revert items. induction idx as [|i idx IH]; intros [|x items]; simpl;
    try reflexivity.
  unfold pushed_order in *. simpl. now rewrite IH.
Qed.

(** X12. An [order] that is not an object: without one the order list
    is empty; an array or a string is read element by element (a string
    character by character), each element becoming the direction of a
    pair whose name is the numeric index. *)
Theorem order_of_array_or_string this options :
  (prop options ORDER = VUndefined -> order (_getOptions this options) = [])
  /\ (forall items, prop options ORDER = VArr items ->
        order (_getOptions this options)
        = map (fun iv => OrderBy (VNum (of_Z (Z.of_nat (fst iv)))) (snd iv))
            (combine (seq 0 (List.length items)) items))
  /\ (forall s, prop options ORDER = VStr s ->
        order (_getOptions this options)
        = map (fun iv => OrderBy (VNum (of_Z (Z.of_nat (fst iv)))) (snd iv))
            (combine (seq 0 (List.length (chars s))) (chars s))).
Proof.
  rewrite getOptions_order. split; [|split].
  - intros ->. reflexivity.
  - intros items ->. unfold Lodash.entries. simpl. apply pushed_order_indexed.
  - intros s ->. unfold Lodash.entries. simpl. apply pushed_order_indexed.
Qed.

End OrderShape.

Module RunMore.
Import Sample.

Lemma exclude_stays_in_where_run :
  lookup EXCLUDE (where_ (_getOptions users hide_name))
  = lookup EXCLUDE hide_name.
Proof.
  apply (exclude_stays_in_where users hide_name); [reflexivity | reflexivity |].
  change (~ In EXCLUDE []). intros [].
Defined.

Lemma string_exclude_excludes_nothing_run :
  attributes (_getOptions users hide_name) = chosen_attributes users hide_name.
Proof.
  apply (string_exclude_excludes_nothing users hide_name "name"); reflexivity.
Defined.

(** The attribute named by the string is still asked for. *)
Example hide_name_attributes :
  attributes (_getOptions users hide_name) = [VStr "id"; VStr "name"].
Proof. reflexivity. Qed.

Lemma constructed_defaults_run :
  _getOptions users []
  = {| attributes := map VStr (orm_attributes (model_ops (model users)));
       where_ := [];
       include := [];
       order := [];
       limit := Some (of_Z 100);
       offset := Some (of_Z 0);
       subQuery := false |}.
Proof. apply (constructed_defaults "User" users). reflexivity. Defined.

Lemma include_one_entry_per_name_run :
  NoDup (keys (built_include users posts_titled))
  /\ (forall n, In n (keys (built_include users posts_titled))
                <-> In n (written_names users posts_titled))
  /\ (forall n e, In (n, e) (built_include users posts_titled) ->
                  inc_model e = models n)
  /\ include (_getOptions users posts_titled)
     = values (built_include users posts_titled).
Proof.
  apply (include_one_entry_per_name users posts_titled); reflexivity.
Defined.

(** [Post] is named three times and [Tag] once: two entries. *)
Example posts_titled_include :
  include (_getOptions users posts_titled)
  = [{| inc_model := Some "Post";
        inc_attributes := Some [VStr "title"];
        inc_where := Some (SequelizeAnd (VObj [("title", VStr "t")])) |};
     {| inc_model := Some "Tag"; inc_attributes := None; inc_where := None |}].
Proof. reflexivity. Qed.

Lemma relation_parameter_becomes_include_entry_run :
  entry_of (built_include users posts_titled) "Post"
  = Some (relation_entry "Post"
            (VObj [("attributes", VStr "title"); ("title", VStr "t")]))
  /\ In (relation_entry "Post"
           (VObj [("attributes", VStr "title"); ("title", VStr "t")]))
        (include (_getOptions users posts_titled)).
Proof.
  apply (relation_parameter_becomes_include_entry users posts_titled "Post"
           (VObj [("attributes", VStr "title"); ("title", VStr "t")]));
    try reflexivity.
  - change (NoDup ["Post"; "include"; "order"]).
    repeat constructor; simpl; intuition discriminate.
  - left. reflexivity.
  - left. reflexivity.
Defined.

Lemma count_options_ignore_page_run :
  omit_limit_offset
    (_getOptions users ([("name", VStr "bob")] ++ (LIMIT, VStr "2") :: []))
  = omit_limit_offset
      (_getOptions users ([("name", VStr "bob")] ++ (LIMIT, VStr "50") :: [])).
Proof.
  apply (count_options_ignore_page users [("name", VStr "bob")] [] LIMIT
           (VStr "2") (VStr "50")).
  - left. reflexivity.
  - intros [Hin | []]. discriminate.
Defined.

Lemma create_rejects_with_orm_errors_only_run :
  exists e,
    OrmError (DatabaseError "name cannot be null") = OrmError e
    /\ ((orm_create (model_ops (model users)) (VObj []) rows = (Rejected e, rows)
         /\ forall detail, e <> UniqueConstraintError detail)
        \/ (exists detail d1,
              orm_create (model_ops (model users)) (VObj []) rows
                = (Rejected (UniqueConstraintError detail), d1)
              /\ orm_findOne (model_ops (model users)) (VObj []) d1
                 = (Rejected e, rows))).
Proof.
  apply (create_rejects_with_orm_errors_only users (VObj []) rows). reflexivity.
Defined.

Lemma update_resolves_when_count_is_in_array_run :
  update (H := app_counting_in_array) users (VNum (of_Z 7)) dan rows
  = (Resolved VUndefined, rows).
Proof.
  apply (update_resolves_when_count_is_in_array (H := app_counting_in_array)
           users (VNum (of_Z 7)) dan rows rows [row_count 0]).
  reflexivity.
Defined.

Lemma order_of_array_or_string_run :
  order (_getOptions users [("order", VStr "id")])
  = [OrderBy (VNum (of_Z 0)) (VStr "i"); OrderBy (VNum (of_Z 1)) (VStr "d")].
Proof.
  apply (proj2 (proj2 (order_of_array_or_string users [("order", VStr "id")]))
           "id").
  reflexivity.
Defined.

(** With a lodash whose [_.set] refuses [prototype], as the sample has
    it, a name [prototype] under [include] adds nothing to the include
    option and the parameter of that name stays in [where]. *)
Example prototype_is_not_included :
  include (_getOptions users [("include", VStr "prototype");
                              ("prototype", VStr "x")]) = []
  /\ where_ (_getOptions users [("include", VStr "prototype");
                                ("prototype", VStr "x")])
     = [("prototype", VStr "x")].
Proof. split; reflexivity. Qed.

(** C4. Over an ORM that resolves an update with [[affectedCount]], an
    update for an id no row has: the ORM resolves with [[0]] and leaves
    the table as it was, and [update] resolves instead of rejecting with
    [HttpError(204)]. *)
Theorem update_resolves_though_no_row_is_affected :
  orm_update (model_ops (Host := app_counting_in_array) (model users)) dan
    (VObj [("id", VNum (of_Z 7))]) rows
  = (Resolved (VArr [row_count 0]), rows)
  /\ update (H := app_counting_in_array) users (VNum (of_Z 7)) dan rows
     = (Resolved VUndefined, rows)
  /\ update (H := app_counting_in_array) users (VNum (of_Z 7)) dan rows
     <> (Rejected (HttpError 204), rows).
Proof.
  split; [reflexivity|]. split; [reflexivity|].
  change ((Resolved VUndefined, rows) <> (Rejected (HttpError 204), rows)).
  discriminate.
Qed.

End RunMore.
